(** * Aura AI companion backend: message pipeline, memory and check-ins

    A shallow embedding of [backend_listener.py] (single-tenant listener,
    summarizer and scheduler jobs) and [checkin_scheduler.py] (multi-tenant
    fan-out scheduler).

    The Python code is a sequence of calls to two external services, the
    Firestore document store and the Gemini text generation service, glued
    by [try]/[except] blocks and one global counter.  Both services are
    modelled inside a [World]: the store as finite maps from user ids to
    collections, and the outcome of every external call (goes through, or
    raises) as an oracle indexed by the number of calls made so far.  Python
    code becomes a computation in a state-and-exception monad [Task], and
    every external call and every [print] leaves an [Event] in a trace. *)

From stdpp Require Import base gmap strings list sorting.
From Stdlib Require Import ZArith Lia.

Local Open Scope Z_scope.

(** ** Python strings *)

Module Py.

Definition nl : string := String (Ascii.ascii_of_nat 10) EmptyString.
Definition dquote : string := String (Ascii.ascii_of_nat 34) EmptyString.

(** [sep.join(l)] *)
Fixpoint join (sep : string) (l : list string) : string :=
  match l with
  | [] => EmptyString
  | [x] => x
  | x :: r => x +:+ sep +:+ join sep r
  end.

(** Truth value of a string in a condition: [if s:] *)
Definition truthy (s : string) : bool :=
  match s with
  | EmptyString => false
  | String _ _ => true
  end.

(** [needle in haystack] *)
Fixpoint contains (haystack needle : string) : bool :=
  String.prefix needle haystack ||
  match haystack with
  | EmptyString => false
  | String _ rest => contains rest needle
  end.

End Py.

(** ** Data model *)

(** A document of [users/{id}/messages].  The frontend and the backend write
    the three fields together, so a message is a record with all of them;
    [timestamp] is the server-assigned ordering key. *)
Record Message := mkMessage {
  sender : string;
  text : string;
  timestamp : Z
}.

(** Firestore [DocumentChange]: its [type.name] and the changed document. *)
Inductive ChangeType := ADDED | MODIFIED | REMOVED.

Record DocumentChange := mkChange {
  change_type : ChangeType;
  document : Message
}.

(** What is sent to the generation service. *)
Record Turn := mkTurn {
  role : string;
  parts : list string
}.

Inductive Contents :=
| Prompt (p : string)
| Turns (h : list Turn).

Record GenRequest := mkRequest {
  model_name : string;
  system_instruction : option string;
  contents : Contents;
  (** [GenerationConfig(temperature=...)], in hundredths; [None] when the
      call passes no generation config. *)
  temperature : option Z
}.

(** Lines printed by the two scripts (the interpolated exception text is
    dropped). *)
Inductive LogLine :=
| LogMemoryFetchError
| LogMemoryUpdated
| LogMemoryUpdateError
| LogSummarizing
| LogSummarizationError
| LogAIResponseError
| LogProcessing (n : nat)
| LogAIResponseSent
| LogProactiveError
| LogStartupSending
| LogStartupSent (t : string)
| LogMorningRunning
| LogMorningSent (t : string)
| LogEveningRunning
| LogEveningSent (t : string)
| LogFoundUsers (ids : list string)
| LogFetchUsersError
| LogGenerateError
| LogGeneratingFor (user : string)
| LogSentTo (user : string) (t : string)
| LogSendFailed (user : string)
| LogJobStarted
| LogJobFinished.

(** External calls, with whether they went through, and printed lines. *)
Inductive Event :=
| MemoryGet (user : string) (ok : bool)
| MemorySet (user : string) (summary : string) (ok : bool)
| MessagesQuery (user : string) (limit : nat) (ok : bool)
| MessagesAdd (user : string) (msg_sender msg_text : string) (ok : bool)
| UsersStream (ok : bool)
| Generate (req : GenRequest) (ok : bool)
| Print (line : LogLine).

(** ** The world: store, services and the process's global *)

Record World := mkWorld {
  (** [artifacts/{APP_ID}/users/{id}/messages], in insertion order *)
  db_messages : gmap string (list Message);
  (** [artifacts/{APP_ID}/users/{id}/memory/long_term]: the document, when
      it exists, with its [summary] field, when it has one *)
  db_memory : gmap string (option string);
  (** ids of the documents of [artifacts/{APP_ID}/users] *)
  db_users : list string;
  (** the value the server gives to the next [SERVER_TIMESTAMP] *)
  server_time : Z;
  (** [store_fails n]: the n-th call to the store raises *)
  store_fails : nat -> bool;
  store_calls : nat;
  (** [gen_results n]: the text of the n-th generation, [None] when the
      call, or reading [response.text], raises *)
  gen_results : nat -> option string;
  gen_calls : nat;
  (** the module global of [backend_listener.py] *)
  user_messages_since_last_summary : Z;
  trace : list Event
}.

Definition set_db_messages (f : gmap string (list Message) -> gmap string (list Message))
    (w : World) : World :=
  mkWorld (f (db_messages w)) (db_memory w) (db_users w) (server_time w)
          (store_fails w) (store_calls w) (gen_results w) (gen_calls w)
          (user_messages_since_last_summary w) (trace w).

Definition set_db_memory (f : gmap string (option string) -> gmap string (option string))
    (w : World) : World :=
  mkWorld (db_messages w) (f (db_memory w)) (db_users w) (server_time w)
          (store_fails w) (store_calls w) (gen_results w) (gen_calls w)
          (user_messages_since_last_summary w) (trace w).

Definition set_server_time (f : Z -> Z) (w : World) : World :=
  mkWorld (db_messages w) (db_memory w) (db_users w) (f (server_time w))
          (store_fails w) (store_calls w) (gen_results w) (gen_calls w)
          (user_messages_since_last_summary w) (trace w).

Definition set_store_calls (f : nat -> nat) (w : World) : World :=
  mkWorld (db_messages w) (db_memory w) (db_users w) (server_time w)
          (store_fails w) (f (store_calls w)) (gen_results w) (gen_calls w)
          (user_messages_since_last_summary w) (trace w).

Definition set_gen_calls (f : nat -> nat) (w : World) : World :=
  mkWorld (db_messages w) (db_memory w) (db_users w) (server_time w)
          (store_fails w) (store_calls w) (gen_results w) (f (gen_calls w))
          (user_messages_since_last_summary w) (trace w).

Definition set_counter (f : Z -> Z) (w : World) : World :=
  mkWorld (db_messages w) (db_memory w) (db_users w) (server_time w)
          (store_fails w) (store_calls w) (gen_results w) (gen_calls w)
          (f (user_messages_since_last_summary w)) (trace w).

Definition set_trace (f : list Event -> list Event) (w : World) : World :=
  mkWorld (db_messages w) (db_memory w) (db_users w) (server_time w)
          (store_fails w) (store_calls w) (gen_results w) (gen_calls w)
          (user_messages_since_last_summary w) (f (trace w)).

(** The collection of a user; a collection nobody wrote to is empty. *)
Definition messages_of (w : World) (user : string) : list Message :=
  default [] (db_messages w !! user).

(** ** Computations: state and Python exceptions *)

Inductive Exn := StoreError | GenerationError.

Inductive Result (A : Type) :=
| Ok (a : A)
| Raise (e : Exn).
Arguments Ok {A} a.
Arguments Raise {A} e.

Definition Task (A : Type) : Type := World -> Result A * World.

Definition ret {A} (a : A) : Task A := fun w => (Ok a, w).

Definition bind {A B} (c : Task A) (k : A -> Task B) : Task B :=
  fun w =>
    match c w with
    | (Ok a, w1) => k a w1
    | (Raise e, w1) => (Raise e, w1)
    end.

Definition raise {A} (e : Exn) : Task A := fun w => (Raise e, w).

(** [try: body / except Exception as e: handler] *)
Definition try_except {A} (body : Task A) (handler : Exn -> Task A) : Task A :=
  fun w =>
    match body w with
    | (Ok a, w1) => (Ok a, w1)
    | (Raise e, w1) => handler e w1
    end.

Definition get_world : Task World := fun w => (Ok w, w).
Definition modify (f : World -> World) : Task unit := fun w => (Ok tt, f w).

Declare Scope task_scope.
Delimit Scope task_scope with task.
Notation "x <- c ;; k" := (bind c (fun x => k))
  (at level 100, c at next level, k at level 200, right associativity) : task_scope.
Notation "c ;; k" := (bind c (fun _ => k))
  (at level 100, k at level 200, right associativity) : task_scope.
Local Open Scope task_scope.

(** [for x in l: body x] *)
Fixpoint for_each {A} (l : list A) (body : A -> Task unit) : Task unit :=
  match l with
  | [] => ret tt
  | x :: r => body x ;; for_each r body
  end.

Definition emit (e : Event) : Task unit := modify (set_trace (fun t => t ++ [e])).
Definition print (l : LogLine) : Task unit := emit (Print l).

(** ** The external services *)

Module Firestore.

(** One round trip to the store: consumes the next answer of the oracle
    and tells whether the call goes through. *)
Definition round_trip : Task bool :=
  fun w => (Ok (negb (store_fails w (store_calls w))), set_store_calls S w).

(** [order_by('timestamp', direction=DESCENDING)] *)
Fixpoint insert_desc (m : Message) (l : list Message) : list Message :=
  match l with
  | [] => [m]
  | x :: r =>
      if timestamp x <=? timestamp m then m :: x :: r
      else x :: insert_desc m r
  end.

Definition order_by_timestamp_desc (l : list Message) : list Message :=
  foldr insert_desc [] l.

(** [memory_ref.get()]: [None] when the document does not exist. *)
Definition memory_get (user : string) : Task (option (option string)) :=
  ok <- round_trip ;;
  emit (MemoryGet user ok) ;;
  if ok then w <- get_world ;; ret (db_memory w !! user)
  else raise StoreError.

(** [memory_ref.set({'summary': new_summary})] *)
Definition memory_set (user : string) (new_summary : string) : Task unit :=
  ok <- round_trip ;;
  emit (MemorySet user new_summary ok) ;;
  if ok then modify (set_db_memory (fun m => <[user := Some new_summary]> m))
  else raise StoreError.

(** [messages_ref.order_by('timestamp', direction=DESCENDING).limit(n).stream()],
    read to the end. *)
Definition messages_recent_desc (user : string) (n : nat) : Task (list Message) :=
  ok <- round_trip ;;
  emit (MessagesQuery user n ok) ;;
  if ok then w <- get_world ;; ret (take n (order_by_timestamp_desc (messages_of w user)))
  else raise StoreError.

(** [messages_ref.add({'sender': s, 'text': t, 'timestamp': SERVER_TIMESTAMP})] *)
Definition messages_add (user : string) (s t : string) : Task unit :=
  ok <- round_trip ;;
  emit (MessagesAdd user s t ok) ;;
  if ok then
    modify (fun w =>
      set_server_time Z.succ
        (set_db_messages
           (fun m => <[user := messages_of w user ++ [mkMessage s t (server_time w)]]> m) w))
  else raise StoreError.

(** [users_ref.stream()], read to the end: the ids of the user documents. *)
Definition users_stream : Task (list string) :=
  ok <- round_trip ;;
  emit (UsersStream ok) ;;
  if ok then w <- get_world ;; ret (db_users w)
  else raise StoreError.

End Firestore.

Module Gemini.

(** [model.generate_content(...)] followed by [response.text]. *)
Definition generate_content (req : GenRequest) : Task string :=
  fun w =>
    match gen_results w (gen_calls w) with
    | Some t => (Ok t, set_trace (fun tr => tr ++ [Generate req true]) (set_gen_calls S w))
    | None => (Raise GenerationError,
               set_trace (fun tr => tr ++ [Generate req false]) (set_gen_calls S w))
    end.

End Gemini.

(** ** [backend_listener.py]: the single-tenant backend *)

Module BackendListener.

Import Py.

Definition APP_ID : string := "aura-ai-companion-mvp".
Definition USER_ID : string := "local-dev-user".

(** Summarize after every 5 user messages *)
Definition SUMMARY_INTERVAL : Z := 5.

Definition BASE_SYSTEM_PROMPT : string :=
  nl +:+
  "You are Aura, a caring and empathetic AI companion. Your goal is not just to answer questions, but to be a supportive friend. " +:+ nl +:+
  "- Be warm, encouraging, and understanding in your responses." +:+ nl +:+
  "- Ask gentle follow-up questions to show you're listening." +:+ nl +:+
  "- Never say you are a " +:+ dquote +:+ "large language model" +:+ dquote +:+
  " or " +:+ dquote +:+ "trained by Google." +:+ dquote +:+ " You are Aura." +:+ nl +:+
  "- Keep your responses concise and conversational, like a text message." +:+ nl.

(** The block appended to the system prompt when there is a memory. *)
Definition memory_block (user_memory : string) : string :=
  nl +:+ nl +:+ "Here is what you remember about the user:" +:+ nl +:+ user_memory.

Definition REPLY_FALLBACK : string :=
  "I'm having a little trouble thinking right now. Please try again in a moment.".

Definition PROACTIVE_FALLBACK : string :=
  "Just wanted to check in and see how you are.".

(** *** Memory management *)

Definition get_user_memory : Task string :=
  try_except
    (memory_doc <- Firestore.memory_get USER_ID ;;
     match memory_doc with
     | Some fields => ret (default EmptyString fields)
     | None => ret EmptyString
     end)
    (fun _ => print LogMemoryFetchError ;; ret EmptyString).

Definition update_user_memory (new_summary : string) : Task unit :=
  try_except
    (Firestore.memory_set USER_ID new_summary ;;
     print LogMemoryUpdated)
    (fun _ => print LogMemoryUpdateError).

Definition conversation_line (msg : Message) : string :=
  sender msg +:+ ": " +:+ text msg.

Definition summary_prompt (existing_summary conversation_text : string) : string :=
  nl +:+
  "    You are a memory assistant. Your task is to analyze a conversation and update a user's profile." +:+ nl +:+
  "    " +:+ nl +:+
  "    Current user profile:" +:+ nl +:+
  "    " +:+ existing_summary +:+ nl +:+
  "    " +:+ nl +:+
  "    Recent conversation:" +:+ nl +:+
  "    " +:+ conversation_text +:+ nl +:+
  "    " +:+ nl +:+
  "    Based on the recent conversation, update the user profile with new key facts, preferences, or important life events. " +:+ nl +:+
  "    Keep the profile concise, in the third person (e.g., " +:+ dquote +:+ "User likes..." +:+ dquote +:+
  "), and merge new information with existing facts. Do not repeat facts." +:+ nl +:+
  "    The updated profile should be a single block of text." +:+ nl +:+
  "    " +:+ nl +:+
  "    Updated user profile:" +:+ nl +:+
  "    ".

Definition summary_request (chat_history : list Message) (existing_summary : string)
    : GenRequest :=
  let conversation_text := join nl (map conversation_line chat_history) in
  mkRequest "gemini-2.0-flash" None
            (Prompt (summary_prompt existing_summary conversation_text)) None.

Definition summarize_conversation (chat_history : list Message)
    (existing_summary : string) : Task unit :=
  print LogSummarizing ;;
  let request := summary_request chat_history existing_summary in
  try_except
    (response_text <- Gemini.generate_content request ;;
     update_user_memory response_text)
    (fun _ => print LogSummarizationError).

(** *** Core AI logic *)

Definition dynamic_system_prompt (user_memory : string) : string :=
  if truthy user_memory then BASE_SYSTEM_PROMPT +:+ memory_block user_memory
  else BASE_SYSTEM_PROMPT.

Definition format_turn (msg : Message) : Turn :=
  mkTurn (if String.eqb (sender msg) "user" then "user" else "model") [text msg].

Definition reply_request (chat_history : list Message) (user_memory : string)
    : GenRequest :=
  mkRequest "gemini-2.0-flash" (Some (dynamic_system_prompt user_memory))
            (Turns (map format_turn chat_history)) (Some 75).

Definition get_ai_response (chat_history : list Message) (user_memory : string)
    : Task string :=
  try_except
    (Gemini.generate_content (reply_request chat_history user_memory))
    (fun _ => print LogAIResponseError ;; ret REPLY_FALLBACK).

Definition process_new_messages (messages : list Message) : Task unit :=
  match messages with
  | [] => ret tt
  | _ :: _ =>
      print (LogProcessing (length messages)) ;;
      modify (set_counter (fun c => c + Z.of_nat (length messages))) ;;
      user_memory <- get_user_memory ;;
      docs <- Firestore.messages_recent_desc USER_ID 15 ;;
      let chat_history := reverse docs in
      match chat_history with
      | [] => ret tt
      | _ :: _ =>
          ai_text <- get_ai_response chat_history user_memory ;;
          Firestore.messages_add USER_ID "ai" ai_text ;;
          print LogAIResponseSent ;;
          w <- get_world ;;
          if SUMMARY_INTERVAL <=? user_messages_since_last_summary w then
            summarize_conversation chat_history user_memory ;;
            modify (set_counter (fun _ => 0))
          else ret tt
      end
  end.

(** *** Real-time listener *)

Definition is_added (c : DocumentChange) : bool :=
  match change_type c with
  | ADDED => true
  | _ => false
  end.

Fixpoint new_user_messages (changes : list DocumentChange) : list Message :=
  match changes with
  | [] => []
  | change :: rest =>
      if is_added change && String.eqb (sender (document change)) "user"
      then document change :: new_user_messages rest
      else new_user_messages rest
  end.

Definition on_snapshot (changes : list DocumentChange) : Task unit :=
  match new_user_messages changes with
  | [] => ret tt
  | batch => process_new_messages batch
  end.

(** *** Proactive scheduler and startup message *)

Definition proactive_request (prompt user_memory : string) : GenRequest :=
  mkRequest "gemini-2.0-flash" (Some (dynamic_system_prompt user_memory))
            (Prompt prompt) None.

Definition generate_proactive_message (prompt user_memory : string) : Task string :=
  try_except
    (Gemini.generate_content (proactive_request prompt user_memory))
    (fun _ => print LogProactiveError ;; ret PROACTIVE_FALLBACK).

Definition STARTUP_PROMPT : string :=
  "Write a short, friendly message to say you're online and checking in. Something like 'Hey, just came online and thought of you! How are you doing?'".

Definition MORNING_PROMPT : string :=
  "Write a short, kind, and gentle good morning message. It should feel warm and encouraging. Ask a soft question about the day ahead. If you know something about the user from their memory, subtly reference it.".

Definition EVENING_PROMPT : string :=
  "Write a short, calming, and empathetic good evening message. Ask how the day went without being intrusive. If you know something about the user from their memory, subtly reference it.".

Definition send_startup_message : Task unit :=
  print LogStartupSending ;;
  user_memory <- get_user_memory ;;
  message_text <- generate_proactive_message STARTUP_PROMPT user_memory ;;
  Firestore.messages_add USER_ID "ai" message_text ;;
  print (LogStartupSent message_text).

Definition morning_checkin_job : Task unit :=
  print LogMorningRunning ;;
  user_memory <- get_user_memory ;;
  message_text <- generate_proactive_message MORNING_PROMPT user_memory ;;
  Firestore.messages_add USER_ID "ai" message_text ;;
  print (LogMorningSent message_text).

Definition evening_checkin_job : Task unit :=
  print LogEveningRunning ;;
  user_memory <- get_user_memory ;;
  message_text <- generate_proactive_message EVENING_PROMPT user_memory ;;
  Firestore.messages_add USER_ID "ai" message_text ;;
  print (LogEveningSent message_text).

End BackendListener.

(** ** [checkin_scheduler.py]: the multi-tenant scheduler *)

Module CheckinScheduler.

Definition APP_ID : string := "aura-ai-companion-mvp".

Definition PROACTIVE_FALLBACK : string :=
  "Just checking in on you. Hope you're having a good day.".

Definition get_all_user_ids : Task (list string) :=
  try_except
    (user_ids <- Firestore.users_stream ;;
     print (LogFoundUsers user_ids) ;;
     ret user_ids)
    (fun _ => print LogFetchUsersError ;; ret []).

(** The module-level [model = genai.GenerativeModel("gemini-pro")] takes
    no system instruction. *)
Definition proactive_request (prompt : string) : GenRequest :=
  mkRequest "gemini-pro" None (Prompt prompt) None.

Definition generate_proactive_message (prompt : string) : Task string :=
  try_except
    (Gemini.generate_content (proactive_request prompt))
    (fun _ => print LogGenerateError ;; ret PROACTIVE_FALLBACK).

Definition send_checkin_message_to_user (user_id prompt : string) : Task unit :=
  if Py.truthy user_id then
    print (LogGeneratingFor user_id) ;;
    message_text <- generate_proactive_message prompt ;;
    try_except
      (Firestore.messages_add user_id "ai" message_text ;;
       print (LogSentTo user_id message_text))
      (fun _ => print (LogSendFailed user_id))
  else ret tt.

Definition MORNING_PROMPT : string :=
  "Write a short, kind, and gentle good morning message. It should feel warm and encouraging, like it's from a close friend who genuinely cares. Ask a soft question about the day ahead.".

Definition EVENING_PROMPT : string :=
  "Write a short, calming, and empathetic good evening message. It should be a gentle prompt for reflection, asking how the day went without being intrusive. The tone should be like a safe space to unwind.".

Definition morning_checkin_job : Task unit :=
  print LogJobStarted ;;
  user_ids <- get_all_user_ids ;;
  for_each user_ids (fun user_id => send_checkin_message_to_user user_id MORNING_PROMPT) ;;
  print LogJobFinished.

Definition evening_checkin_job : Task unit :=
  print LogJobStarted ;;
  user_ids <- get_all_user_ids ;;
  for_each user_ids (fun user_id => send_checkin_message_to_user user_id EVENING_PROMPT) ;;
  print LogJobFinished.

End CheckinScheduler.

(** * Vocabulary of the statements *)

Import BackendListener.

(** ** The history query *)

(** Newest first, as the query asks; oldest first, as the pipeline reads
    the window. *)
Definition newer_first (a b : Message) : Prop := timestamp b <= timestamp a.
Definition older_first (a b : Message) : Prop := timestamp a <= timestamp b.

(** [limit(n)] followed by [[::-1]], on a collection. *)
Definition recent_window (n : nat) (l : list Message) : list Message :=
  reverse (take n (Firestore.order_by_timestamp_desc l)).

(** ** Worlds and traces *)

(** The world after some lines were added to the trace. *)
Definition logged (evs : list Event) (w : World) : World :=
  set_trace (fun t => t ++ evs) w.

(** The events a run from [w] to [w'] has added. *)
Definition events_since (w w' : World) : list Event :=
  drop (length (trace w)) (trace w').

(** The summary the memory document holds: empty when there is no
    document, or no [summary] field in it. *)
Definition stored_summary (w : World) : string :=
  default EmptyString (default None (db_memory w !! USER_ID)).

(** ** The response pipeline, path by path *)

(** One run of [process_new_messages] makes its store calls in a fixed
    order: memory read, history read, reply write and, when the summarizer
    gets a text, memory write; and its generation calls likewise: the
    reply, then the summary. *)
Definition memory_read_fails (w : World) : bool := store_fails w (store_calls w).
Definition history_read_fails (w : World) : bool := store_fails w (S (store_calls w)).
Definition reply_write_fails (w : World) : bool := store_fails w (S (S (store_calls w))).
Definition memory_write_fails (w : World) : bool :=
  store_fails w (S (S (S (store_calls w)))).
Definition reply_generation (w : World) : option string := gen_results w (gen_calls w).
Definition summary_generation (w : World) : option string :=
  gen_results w (S (gen_calls w)).

(** What [get_user_memory] hands to the pipeline. *)
Definition user_memory_read (w : World) : string :=
  if memory_read_fails w then EmptyString else stored_summary w.

Definition memory_read_events (w : World) : list Event :=
  if memory_read_fails w
  then [MemoryGet USER_ID false; Print LogMemoryFetchError]
  else [MemoryGet USER_ID true].

(** The window the pipeline reads: 15 most recent, oldest first. *)
Definition history_window (w : World) : list Message :=
  recent_window 15 (messages_of w USER_ID).

Definition reply_text (w : World) : string :=
  default REPLY_FALLBACK (reply_generation w).

Definition reply_events (w : World) : list Event :=
  let request := reply_request (history_window w) (user_memory_read w) in
  match reply_generation w with
  | Some _ => [Generate request true]
  | None => [Generate request false; Print LogAIResponseError]
  end.

Definition summarizer_events (w : World) : list Event :=
  let request := summary_request (history_window w) (user_memory_read w) in
  match summary_generation w with
  | None => [Print LogSummarizing; Generate request false; Print LogSummarizationError]
  | Some t =>
      if memory_write_fails w
      then [Print LogSummarizing; Generate request true;
            MemorySet USER_ID t false; Print LogMemoryUpdateError]
      else [Print LogSummarizing; Generate request true;
            MemorySet USER_ID t true; Print LogMemoryUpdated]
  end.

Definition summarized_memory (w : World) : gmap string (option string) :=
  match summary_generation w with
  | Some t =>
      if memory_write_fails w then db_memory w
      else <[USER_ID := Some t]> (db_memory w)
  | None => db_memory w
  end.

Definition store_calls_of_summarizer (w : World) : nat :=
  match summary_generation w with
  | Some _ => 1
  | None => 0
  end.

Definition with_reply (w : World) : gmap string (list Message) :=
  <[USER_ID := messages_of w USER_ID ++ [mkMessage "ai" (reply_text w) (server_time w)]]>
    (db_messages w).

(** The events up to and including the history read. *)
Definition read_events (n : nat) (w : World) (ok : bool) : list Event :=
  Print (LogProcessing n) :: memory_read_events w ++ [MessagesQuery USER_ID 15 ok].

Definition threshold_reached (n : nat) (w : World) : bool :=
  SUMMARY_INTERVAL <=? user_messages_since_last_summary w + Z.of_nat n.

(** The whole of [process_new_messages] on a non-empty batch. *)
Definition pipeline_outcome (n : nat) (w : World) : Result unit * World :=
  let counted := user_messages_since_last_summary w + Z.of_nat n in
  if history_read_fails w then
    (Raise StoreError,
     mkWorld (db_messages w) (db_memory w) (db_users w) (server_time w)
             (store_fails w) (S (S (store_calls w))) (gen_results w) (gen_calls w)
             counted (trace w ++ read_events n w false))
  else
    match history_window w with
    | [] =>
        (Ok tt,
         mkWorld (db_messages w) (db_memory w) (db_users w) (server_time w)
                 (store_fails w) (S (S (store_calls w))) (gen_results w) (gen_calls w)
                 counted (trace w ++ read_events n w true))
    | _ :: _ =>
        if reply_write_fails w then
          (Raise StoreError,
           mkWorld (db_messages w) (db_memory w) (db_users w) (server_time w)
                   (store_fails w) (S (S (S (store_calls w)))) (gen_results w)
                   (S (gen_calls w)) counted
                   (trace w ++ read_events n w true ++ reply_events w ++
                      [MessagesAdd USER_ID "ai" (reply_text w) false]))
        else if threshold_reached n w then
          (Ok tt,
           mkWorld (with_reply w) (summarized_memory w) (db_users w)
                   (Z.succ (server_time w)) (store_fails w)
                   (store_calls_of_summarizer w + S (S (S (store_calls w))))
                   (gen_results w) (S (S (gen_calls w))) 0
                   (trace w ++ read_events n w true ++ reply_events w ++
                      [MessagesAdd USER_ID "ai" (reply_text w) true;
                       Print LogAIResponseSent] ++ summarizer_events w))
        else
          (Ok tt,
           mkWorld (with_reply w) (db_memory w) (db_users w)
                   (Z.succ (server_time w)) (store_fails w)
                   (S (S (S (store_calls w)))) (gen_results w) (S (gen_calls w))
                   counted
                   (trace w ++ read_events n w true ++ reply_events w ++
                      [MessagesAdd USER_ID "ai" (reply_text w) true;
                       Print LogAIResponseSent]))
    end.

(** ** Reading a trace *)

Definition is_generation (e : Event) : bool :=
  match e with
  | Generate _ _ => true
  | _ => false
  end.

Definition is_store_write (e : Event) : bool :=
  match e with
  | MemorySet _ _ _ | MessagesAdd _ _ _ _ => true
  | _ => false
  end.

(** The first thing [summarize_conversation] does is to print this line. *)
Definition is_summarizer_start (e : Event) : bool :=
  match e with
  | Print LogSummarizing => true
  | _ => false
  end.

(** Everything the summarizer does: its lines, its generation request (the
    only one of the pipeline whose contents are a prompt) and its write. *)
Definition is_summarizer_event (e : Event) : bool :=
  match e with
  | Print LogSummarizing | Print LogSummarizationError
  | Print LogMemoryUpdated | Print LogMemoryUpdateError => true
  | MemorySet _ _ _ => true
  | Generate req _ =>
      match contents req with
      | Prompt _ => true
      | Turns _ => false
      end
  | _ => false
  end.

(** An AI message went into the collection of the single-tenant user. *)
Definition is_reply_saved (e : Event) : bool :=
  match e with
  | MessagesAdd user s _ true =>
      String.eqb user BackendListener.USER_ID && String.eqb s "ai"
  | _ => false
  end.

Fixpoint count_events (p : Event → bool) (evs : list Event) : nat :=
  match evs with
  | [] => 0
  | e :: rest => (if p e then 1 else 0) + count_events p rest
  end.

(** [guarded_by guard target seen evs]: every [target] event of [evs] comes
    after a [guard] event (or [seen] says one came before [evs]). *)
Fixpoint guarded_by (guard target : Event → bool) (seen : bool) (evs : list Event) : bool :=
  match evs with
  | [] => true
  | e :: rest =>
      (negb (target e) || seen) && guarded_by guard target (seen || guard e) rest
  end.


Definition is_memory_write (e : Event) : bool :=
  match e with
  | MemorySet _ _ _ => true
  | _ => false
  end.

(** ** Sample worlds *)

Definition sample_chat : list Message :=
  [mkMessage "user" "Hi Aura" 0; mkMessage "user" "I had a long day" 1].

Definition store_up : nat → bool := λ _, false.
Definition always_answers : nat → option string := λ _, Some "I am here for you.".
Definition never_answers : nat → option string := λ _, None.
Definition answers_once : nat → option string :=
  λ k, match k with
       | O => Some "I am here for you."
       | S _ => None
       end.

(** A single-tenant world: the user's chat, a memory document, and the
    global counter at [counter]. *)
Definition sample_world (chat : list Message) (counter : Z) (faults : nat → bool)
    (answers : nat → option string) : World :=
  mkWorld (<[USER_ID := chat]> ∅) (<[USER_ID := Some "User likes tea."]> ∅) [USER_ID]
          (Z.of_nat (length chat)) faults 0 answers 0 counter [].

(** Twenty stored messages, not inserted in the order of their
    timestamps: the k-th has timestamp [7 * k mod 20]. *)
Definition twenty_messages : list Message :=
  map (λ k, mkMessage (if Nat.even k then "user" else "ai") "..."
                      ((7 * Z.of_nat k) mod 20))
      (seq 0 20).

(** ** Batches in sequence *)

(** The listener hands one batch after the other to the pipeline. *)
Definition process_batches (batches : list (list Message)) : Task unit :=
  for_each batches process_new_messages.

(** The counter after a batch of [size] messages that got its reply. *)
Definition counter_after (c : Z) (size : nat) : Z :=
  if SUMMARY_INTERVAL <=? c + Z.of_nat size then 0 else c + Z.of_nat size.

(** How many of the batches reach the threshold. *)
Fixpoint crossings (c : Z) (sizes : list nat) : nat :=
  match sizes with
  | [] => 0
  | size :: rest =>
      let here : nat := if SUMMARY_INTERVAL <=? c + Z.of_nat size then 1%nat else 0%nat in
      (here + crossings (counter_after c size) rest)%nat
  end.

(** The store fails at its n-th call from now, and only then. *)
Definition fails_at (n : nat) : nat → bool := λ k, Nat.eqb k n.

(** A multi-tenant world: one user, with a memory document and no message. *)
Definition tenants_world : World :=
  mkWorld (<["alice" := []]> ∅) (<["alice" := Some "User loves hiking."]> ∅) ["alice"]
          0 store_up 0 always_answers 0 0 [].

(** ** Check-ins *)

(** The three proactive messages of the single-tenant backend. *)
Inductive Checkin := Startup | Morning | Evening.

Definition checkin_job (v : Checkin) : Task unit :=
  match v with
  | Startup => send_startup_message
  | Morning => morning_checkin_job
  | Evening => evening_checkin_job
  end.

Definition checkin_prompt (v : Checkin) : string :=
  match v with
  | Startup => STARTUP_PROMPT
  | Morning => MORNING_PROMPT
  | Evening => EVENING_PROMPT
  end.

Definition checkin_started (v : Checkin) : LogLine :=
  match v with
  | Startup => LogStartupSending
  | Morning => LogMorningRunning
  | Evening => LogEveningRunning
  end.

Definition checkin_sent (v : Checkin) (t : string) : LogLine :=
  match v with
  | Startup => LogStartupSent t
  | Morning => LogMorningSent t
  | Evening => LogEveningSent t
  end.

(** The two jobs of the multi-tenant scheduler. *)
Inductive FanOut := FanOutMorning | FanOutEvening.

Definition fan_out_job (j : FanOut) : Task unit :=
  match j with
  | FanOutMorning => CheckinScheduler.morning_checkin_job
  | FanOutEvening => CheckinScheduler.evening_checkin_job
  end.

Definition fan_out_prompt (j : FanOut) : string :=
  match j with
  | FanOutMorning => CheckinScheduler.MORNING_PROMPT
  | FanOutEvening => CheckinScheduler.EVENING_PROMPT
  end.

(** Every string a generation request carries. *)
Definition request_strings (req : GenRequest) : list string :=
  match system_instruction req with
  | Some s => [s]
  | None => []
  end ++
  match contents req with
  | Prompt p => [p]
  | Turns h => concat (map parts h)
  end.

(** The request includes the summary. *)
Definition request_mentions (summary : string) (req : GenRequest) : bool :=
  existsb (λ s, Py.contains s summary) (request_strings req).

(** What a fan-out job may leave in the trace: requests made of the fixed
    prompt alone, and no read of a memory document. *)
Definition fan_out_event (prompt : string) (e : Event) : Prop :=
  match e with
  | Generate req _ => req = CheckinScheduler.proactive_request prompt
  | MemoryGet _ _ => False
  | _ => True
  end.

(** ** Snapshots, prompts and fan-out *)

(** A change the listener passes on: a document added by the user. *)
Definition is_user_addition (c : DocumentChange) : Prop :=
  change_type c = ADDED ∧ sender (document c) = "user".

(** The line that opens the memory block of a system prompt. *)
Definition MEMORY_HEADER : string := "Here is what you remember about the user:".

(** The system instruction of a request includes [needle]. *)
Definition instruction_contains (needle : string) (req : GenRequest) : bool :=
  match system_instruction req with
  | Some s => Py.contains s needle
  | None => false
  end.

(** A message the backend wrote. *)
Definition from_ai (m : Message) : Prop := sender m = "ai".

(** How many times the fan-out loop sends to [user]: once per occurrence in
    the listing, and never to the empty id. *)
Fixpoint sends_to (user : string) (user_ids : list string) : nat :=
  match user_ids with
  | [] => 0
  | user_id :: rest =>
      let here : nat :=
        if Py.truthy user_id && String.eqb user_id user then 1%nat else 0%nat in
      (here + sends_to user rest)%nat
  end.

(** The user ids the fan-out loop does not skip. *)
Definition sendable (user_ids : list string) : list string :=
  List.filter Py.truthy user_ids.

Definition is_messages_add (e : Event) : bool :=
  match e with
  | MessagesAdd _ _ _ _ => true
  | _ => false
  end.

(** A multi-tenant world whose listing holds two users and an empty id. *)
Definition three_ids_world (faults : nat → bool) (answers : nat → option string) : World :=
  mkWorld ∅ ∅ ["alice"; EmptyString; "bob"] 0 faults 0 answers 0 0 [].

(** * Properties *)

(** ** The history query *)

Section HistoryQuery.

Import Firestore.


#[local] Instance newer_first_trans : Transitive newer_first.
Proof. unfold newer_first. intros a b c. lia. Qed.

#[local] Instance older_first_trans : Transitive older_first.
Proof. unfold older_first. intros a b c. lia. Qed.

Lemma insert_desc_perm (m : Message) (l : list Message) :
  insert_desc m l ≡ₚ m :: l.
Proof.
  induction l as [|x r IH]; simpl; [done|].
  destruct (timestamp x <=? timestamp m); [done|].
  rewrite IH. apply perm_swap.
Qed.

Lemma order_by_timestamp_desc_perm (l : list Message) :
  order_by_timestamp_desc l ≡ₚ l.
Proof.
  induction l as [|x r IH]; simpl; [done|].
  rewrite insert_desc_perm. by rewrite IH.
Qed.

Lemma insert_desc_sorted (m : Message) (l : list Message) :
  StronglySorted newer_first l → StronglySorted newer_first (insert_desc m l).
Proof.
  induction l as [|x r IH]; simpl; intros Hs.
  - repeat constructor.
  - destruct (Z.leb_spec (timestamp x) (timestamp m)) as [Hle|Hlt].
    + constructor; [done|].
      apply StronglySorted_cons in Hs as [Hall _].
      constructor; [done|].
      eapply Forall_impl; [exact Hall|].
      unfold newer_first. intros y Hy. lia.
    + apply StronglySorted_cons in Hs as [Hall Hr].
      constructor; [by apply IH|].
      rewrite insert_desc_perm. constructor; [|done].
      unfold newer_first. lia.
Qed.

Lemma order_by_timestamp_desc_sorted (l : list Message) :
  StronglySorted newer_first (order_by_timestamp_desc l).
Proof.
  induction l as [|x r IH]; simpl; [constructor|].
  by apply insert_desc_sorted.
Qed.

Lemma recent_window_length (n : nat) (l : list Message) :
  length (recent_window n l) = Nat.min n (length l).
Proof.
  unfold recent_window.
  rewrite length_reverse, length_take, (Permutation_length (order_by_timestamp_desc_perm l)).
  done.
Qed.

Lemma recent_window_sorted (n : nat) (l : list Message) :
  Sorted older_first (recent_window n l).
Proof.
  unfold recent_window.
  apply (Sorted_reverse newer_first), StronglySorted_Sorted.
  apply (StronglySorted_app_1_l _ _ (drop n (order_by_timestamp_desc l))).
  rewrite take_drop. apply order_by_timestamp_desc_sorted.
Qed.

(** The window and what the limit cuts off make up the collection, and
    nothing cut off is newer than anything kept. *)
Lemma recent_window_most_recent (n : nat) (l : list Message) :
  let cut := drop n (order_by_timestamp_desc l) in
  recent_window n l ++ cut ≡ₚ l ∧
  ∀ old kept, old ∈ cut → kept ∈ recent_window n l →
              timestamp old <= timestamp kept.
Proof.
  unfold recent_window. split.
  - rewrite reverse_Permutation, take_drop. apply order_by_timestamp_desc_perm.
  - intros old kept Hold Hkept. rewrite elem_of_reverse in Hkept.
    pose proof (order_by_timestamp_desc_sorted l) as Hs.
    rewrite <- (take_drop n) in Hs.
    exact (StronglySorted_app_1_elem_of _ _ _ _ _ Hs Hkept Hold).
Qed.

Lemma recent_window_nil_iff (n : nat) (l : list Message) :
  recent_window (S n) l = [] ↔ l = [].
Proof.
  rewrite <- !length_zero_iff_nil, recent_window_length. lia.
Qed.

End HistoryQuery.

(** ** Running the calls: one equation per function *)

Lemma events_since_app (w w' : World) (evs : list Event) :
  trace w' = trace w ++ evs → events_since w w' = evs.
Proof. unfold events_since. intros ->. apply drop_app_length. Qed.

Ltac unfold_task :=
  unfold print, emit in *;
  unfold bind, ret, raise, try_except, get_world, modify, Firestore.round_trip in *.

Ltac world_eq :=
  unfold logged, set_trace, set_store_calls, set_gen_calls, set_counter,
    set_db_memory, set_db_messages, set_server_time; simpl;
  rewrite <- ?app_assoc; reflexivity.

Ltac cbn_world :=
  unfold logged, set_trace, set_counter, set_store_calls, set_gen_calls,
    set_db_memory, set_db_messages, set_server_time;
  cbn [store_fails store_calls gen_results gen_calls db_messages db_memory
       user_messages_since_last_summary trace server_time db_users fst snd].

Section Steps.

Lemma generate_content_eq (req : GenRequest) (w : World) :
  Gemini.generate_content req w =
  match gen_results w (gen_calls w) with
  | Some t => (Ok t, logged [Generate req true] (set_gen_calls S w))
  | None => (Raise GenerationError, logged [Generate req false] (set_gen_calls S w))
  end.
Proof. reflexivity. Qed.

Lemma messages_add_eq (user s t : string) (w : World) :
  Firestore.messages_add user s t w =
  if store_fails w (store_calls w)
  then (Raise StoreError, logged [MessagesAdd user s t false] (set_store_calls S w))
  else (Ok tt,
        set_server_time Z.succ
          (set_db_messages
             (fun m => <[user := messages_of w user ++ [mkMessage s t (server_time w)]]> m)
             (logged [MessagesAdd user s t true] (set_store_calls S w)))).
Proof.
  unfold Firestore.messages_add. unfold_task.
  destruct (store_fails w (store_calls w)); reflexivity.
Qed.

Lemma messages_recent_desc_eq (user : string) (n : nat) (w : World) :
  Firestore.messages_recent_desc user n w =
  if store_fails w (store_calls w)
  then (Raise StoreError, logged [MessagesQuery user n false] (set_store_calls S w))
  else (Ok (take n (Firestore.order_by_timestamp_desc (messages_of w user))),
        logged [MessagesQuery user n true] (set_store_calls S w)).
Proof.
  unfold Firestore.messages_recent_desc. unfold_task.
  destruct (store_fails w (store_calls w)); reflexivity.
Qed.

Lemma get_user_memory_eq (w : World) :
  get_user_memory w =
  if store_fails w (store_calls w)
  then (Ok EmptyString,
        logged [MemoryGet USER_ID false; Print LogMemoryFetchError] (set_store_calls S w))
  else (Ok (stored_summary w), logged [MemoryGet USER_ID true] (set_store_calls S w)).
Proof.
  unfold get_user_memory, Firestore.memory_get, stored_summary. unfold_task.
  destruct (store_fails w (store_calls w)); simpl.
  - f_equal. world_eq.
  - destruct (db_memory w !! USER_ID); reflexivity.
Qed.

Lemma update_user_memory_eq (new_summary : string) (w : World) :
  update_user_memory new_summary w =
  if store_fails w (store_calls w)
  then (Ok tt,
        logged [MemorySet USER_ID new_summary false; Print LogMemoryUpdateError]
               (set_store_calls S w))
  else (Ok tt,
        logged [MemorySet USER_ID new_summary true; Print LogMemoryUpdated]
               (set_db_memory (fun m => <[USER_ID := Some new_summary]> m)
                              (set_store_calls S w))).
Proof.
  unfold update_user_memory, Firestore.memory_set. unfold_task.
  destruct (store_fails w (store_calls w)); simpl; f_equal; world_eq.
Qed.

Lemma get_ai_response_eq (chat_history : list Message) (user_memory : string) (w : World) :
  get_ai_response chat_history user_memory w =
  match gen_results w (gen_calls w) with
  | Some t =>
      (Ok t, logged [Generate (reply_request chat_history user_memory) true]
                    (set_gen_calls S w))
  | None =>
      (Ok REPLY_FALLBACK,
       logged [Generate (reply_request chat_history user_memory) false;
               Print LogAIResponseError] (set_gen_calls S w))
  end.
Proof.
  unfold get_ai_response, try_except. rewrite generate_content_eq.
  destruct (gen_results w (gen_calls w)); [reflexivity|].
  unfold_task. f_equal. world_eq.
Qed.

Lemma generate_proactive_message_eq (prompt user_memory : string) (w : World) :
  generate_proactive_message prompt user_memory w =
  match gen_results w (gen_calls w) with
  | Some t =>
      (Ok t, logged [Generate (proactive_request prompt user_memory) true]
                    (set_gen_calls S w))
  | None =>
      (Ok PROACTIVE_FALLBACK,
       logged [Generate (proactive_request prompt user_memory) false;
               Print LogProactiveError] (set_gen_calls S w))
  end.
Proof.
  unfold generate_proactive_message, try_except. rewrite generate_content_eq.
  destruct (gen_results w (gen_calls w)); [reflexivity|].
  unfold_task. f_equal. world_eq.
Qed.

(** The summarizer: a failed generation writes nothing; a failed write is
    swallowed by [update_user_memory]. *)
Lemma summarize_conversation_eq (chat_history : list Message) (existing_summary : string)
    (w : World) :
  summarize_conversation chat_history existing_summary w =
  let request := summary_request chat_history existing_summary in
  match gen_results w (gen_calls w) with
  | None =>
      (Ok tt,
       logged [Print LogSummarizing; Generate request false; Print LogSummarizationError]
              (set_gen_calls S w))
  | Some t =>
      if store_fails w (store_calls w)
      then (Ok tt,
            logged [Print LogSummarizing; Generate request true;
                    MemorySet USER_ID t false; Print LogMemoryUpdateError]
                   (set_store_calls S (set_gen_calls S w)))
      else (Ok tt,
            logged [Print LogSummarizing; Generate request true;
                    MemorySet USER_ID t true; Print LogMemoryUpdated]
                   (set_db_memory (fun m => <[USER_ID := Some t]> m)
                                  (set_store_calls S (set_gen_calls S w))))
  end.
Proof.
  unfold summarize_conversation. unfold bind at 1. unfold print, emit, modify.
  unfold try_except, bind. rewrite generate_content_eq. cbv zeta.
  destruct (gen_results (set_trace _ w) _) as [t|] eqn:Hgen; simpl in Hgen; rewrite Hgen.
  - rewrite update_user_memory_eq. simpl.
    destruct (store_fails w (store_calls w)); f_equal; world_eq.
  - unfold_task. f_equal. world_eq.
Qed.

End Steps.

(** ** The whole pipeline *)

Section Pipeline.

Lemma process_new_messages_nil (w : World) :
  process_new_messages [] w = (Ok tt, w).
Proof. reflexivity. Qed.

Lemma process_new_messages_eq (batch : list Message) (w : World) :
  batch ≠ [] →
  process_new_messages batch w = pipeline_outcome (length batch) w.
Proof.
  intros Hbatch. destruct batch as [|m0 ms]; [done|].
  destruct w as [msgs mem users now sf sc gr gc cnt tr].
  unfold process_new_messages, pipeline_outcome.
  set (n := length (m0 :: ms)). clearbody n.
  unfold bind at 1 2 3. unfold print, emit, modify.
  rewrite get_user_memory_eq.
  unfold history_read_fails, reply_write_fails, threshold_reached, read_events,
    memory_read_events, reply_events, summarizer_events, summarized_memory,
    store_calls_of_summarizer, with_reply, reply_text, user_memory_read,
    memory_read_fails, memory_write_fails, reply_generation, summary_generation,
    history_window, recent_window, stored_summary, messages_of.
  cbn_world.
  set (memory := default EmptyString (default None (mem !! USER_ID))).
  set (window := reverse (take 15 (Firestore.order_by_timestamp_desc (default [] (msgs !! USER_ID))))).
  destruct (sf sc) eqn:Hmem.
  all: unfold bind at 1; rewrite messages_recent_desc_eq; cbn_world.
  all: destruct (sf (S sc)) eqn:Hquery; [rewrite <- ?app_assoc; reflexivity|].
  all: unfold messages_of; cbn_world; fold window.
  all: destruct window as [|h0 hs] eqn:Hwindow; [unfold ret; rewrite <- ?app_assoc; reflexivity|].
  all: unfold bind at 1; rewrite get_ai_response_eq; cbn_world.
  all: destruct (gr gc) as [answer|] eqn:Hreply; cbn [default].
  all: unfold bind at 1; rewrite messages_add_eq; cbn_world.
  all: destruct (sf (S (S sc))) eqn:Hadd;
    [rewrite <- ?app_assoc; reflexivity|].
  all: unfold bind at 1 2, get_world; cbn_world.
  all: destruct (SUMMARY_INTERVAL <=? cnt + Z.of_nat n) eqn:Hthreshold;
    [|unfold ret; rewrite <- ?app_assoc; reflexivity].
  all: unfold bind at 1; rewrite summarize_conversation_eq; cbn_world.
  all: unfold messages_of; cbn_world.
  all: destruct (gr (S gc)) as [summary|] eqn:Hsummary;
    [destruct (sf (S (S (S sc)))) eqn:Hset|].
  all: cbn_world; rewrite <- ?app_assoc; reflexivity.
Qed.
End Pipeline.

(** ** Reading a trace *)

Lemma count_events_app (p : Event → bool) (l1 l2 : list Event) :
  count_events p (l1 ++ l2) = (count_events p l1 + count_events p l2)%nat.
Proof. induction l1 as [|e l1 IH]; simpl; [done|]. rewrite IH. lia. Qed.

Lemma guarded_by_sound (guard target : Event → bool) (evs : list Event) :
  ∀ seen, guarded_by guard target seen evs = true →
  ∀ pre e post, evs = pre ++ e :: post → target e = true →
  seen = true ∨ ∃ g, g ∈ pre ∧ guard g = true.
Proof.
  induction evs as [|x rest IH]; intros seen Hg pre e post Heq Htarget.
  - by destruct pre.
  - simpl in Hg. apply andb_prop in Hg as [Hhere Hrest].
    destruct pre as [|p pre]; simplify_eq/=.
    + rewrite Htarget in Hhere. by left.
    + destruct (IH _ Hrest pre e post eq_refl Htarget) as [Hseen|(g & Hin & Hguard)].
      * apply orb_prop in Hseen as [->|Hp]; [by left|].
        right. exists p. split; [apply elem_of_cons; by left|done].
      * right. exists g. split; [apply elem_of_cons; by right|done].
Qed.

(** ** The paths of the pipeline *)

Section PipelinePaths.

Variables (n : nat) (w : World).

(** The history read goes through and finds nothing: the pipeline stops
    after its two reads. *)
Lemma pipeline_empty_window :
  history_read_fails w = false →
  history_window w = [] →
  pipeline_outcome n w =
  (Ok tt,
   mkWorld (db_messages w) (db_memory w) (db_users w) (server_time w)
           (store_fails w) (S (S (store_calls w))) (gen_results w) (gen_calls w)
           (user_messages_since_last_summary w + Z.of_nat n)
           (trace w ++ read_events n w true)).
Proof. unfold pipeline_outcome. by intros -> ->. Qed.

(** The reply is written: what the world looks like afterwards. *)
Lemma pipeline_replies :
  history_read_fails w = false →
  history_window w ≠ [] →
  reply_write_fails w = false →
  ∃ w',
    pipeline_outcome n w = (Ok tt, w') ∧
    db_messages w' = with_reply w ∧
    db_memory w' = (if threshold_reached n w then summarized_memory w else db_memory w) ∧
    user_messages_since_last_summary w' =
      (if threshold_reached n w then 0
       else user_messages_since_last_summary w + Z.of_nat n) ∧
    trace w' =
      trace w ++ read_events n w true ++ reply_events w ++
        [MessagesAdd USER_ID "ai" (reply_text w) true; Print LogAIResponseSent] ++
        (if threshold_reached n w then summarizer_events w else []) ∧
    store_fails w' = store_fails w ∧
    gen_results w' = gen_results w ∧
    server_time w' = Z.succ (server_time w).
Proof.
  intros Hread Hwindow Hwrite. unfold pipeline_outcome. rewrite Hread, Hwrite.
  destruct (history_window w) as [|h0 hs]; [done|].
  destruct (threshold_reached n w); eexists; (split; [reflexivity|]); cbn_world.
  - done.
  - rewrite app_nil_r. done.
Qed.

(** The reply cannot be written: the store error leaves the pipeline. *)
Lemma pipeline_reply_write_fails :
  history_read_fails w = false →
  history_window w ≠ [] →
  reply_write_fails w = true →
  fst (pipeline_outcome n w) = Raise StoreError ∧
  db_messages (snd (pipeline_outcome n w)) = db_messages w.
Proof.
  intros Hread Hwindow Hwrite. unfold pipeline_outcome. rewrite Hread, Hwrite.
  by destruct (history_window w).
Qed.

End PipelinePaths.

Lemma messages_of_with_reply (w w' : World) :
  db_messages w' = with_reply w →
  messages_of w' USER_ID =
    messages_of w USER_ID ++ [mkMessage "ai" (reply_text w) (server_time w)] ∧
  ∀ user, user ≠ USER_ID → messages_of w' user = messages_of w user.
Proof.
  intros Hdb. unfold messages_of. rewrite Hdb. unfold with_reply. split.
  - by rewrite lookup_insert_eq.
  - intros user Hne. by rewrite lookup_insert_ne.
Qed.

Lemma history_window_nil_iff (w : World) :
  history_window w = [] ↔ messages_of w USER_ID = [].
Proof. apply recent_window_nil_iff. Qed.

Lemma on_snapshot_eq (changes : list DocumentChange) (w : World) :
  new_user_messages changes ≠ [] →
  on_snapshot changes w =
  pipeline_outcome (length (new_user_messages changes)) w.
Proof.
  intros Hne. unfold on_snapshot.
  rewrite <- (process_new_messages_eq _ _ Hne).
  by destruct (new_user_messages changes).
Qed.

(** ** The empty history window *)

Lemma read_events_quiet (n : nat) (w : World) :
  Forall (λ e, is_generation e = false ∧ is_store_write e = false ∧
               is_summarizer_event e = false)
         (read_events n w true).
Proof.
  unfold read_events, memory_read_events.
  destruct (memory_read_fails w); repeat constructor.
Qed.

(** C9. A non-empty batch whose history read returns an empty window: the
    pipeline returns normally with the counter raised by the batch size,
    with no generation call, no store write and no summarizer activity, and
    without resetting the counter, so that the next threshold test counts
    the carried increment. *)
Theorem empty_window_keeps_increment (batch : list Message) (w : World) :
  batch ≠ [] →
  history_read_fails w = false →
  history_window w = [] →
  ∃ w',
    process_new_messages batch w = (Ok tt, w') ∧
    user_messages_since_last_summary w' =
      user_messages_since_last_summary w + Z.of_nat (length batch) ∧
    db_messages w' = db_messages w ∧
    db_memory w' = db_memory w ∧
    gen_calls w' = gen_calls w ∧
    Forall (λ e, is_generation e = false ∧ is_store_write e = false ∧
                 is_summarizer_event e = false)
           (events_since w w') ∧
    ∀ next, threshold_reached next w' =
            (SUMMARY_INTERVAL <=?
               user_messages_since_last_summary w + Z.of_nat (length batch) + Z.of_nat next).
Proof.
  intros Hbatch Hread Hwindow.
  rewrite (process_new_messages_eq _ _ Hbatch).
  rewrite (pipeline_empty_window _ _ Hread Hwindow).
  eexists. split; [reflexivity|]. cbn_world. repeat split.
  rewrite (events_since_app _ _ (read_events (length batch) w true)) by done.
  apply read_events_quiet.
Qed.

Lemma empty_window_keeps_increment_witness :
  ∃ w',
    process_new_messages sample_chat (sample_world [] 4 store_up always_answers)
      = (Ok tt, w') ∧
    user_messages_since_last_summary w' = 6 ∧
    messages_of w' USER_ID = [].
Proof.
  destruct (empty_window_keeps_increment sample_chat
              (sample_world [] 4 store_up always_answers))
    as (w' & Hrun & Hcounter & Hdb & _); [done|reflexivity|reflexivity|].
  exists w'. split; [exact Hrun|]. split.
  - rewrite Hcounter. reflexivity.
  - unfold messages_of. rewrite Hdb. reflexivity.
Defined.

(** ** The summarizer *)

(** C5. When the summarizer's generation call fails, the summarizer returns
    normally and the stored memory is what it was: no store call is made
    and no write is attempted. *)
Theorem summarizer_failure_keeps_memory (chat_history : list Message)
    (existing_summary : string) (w : World) :
  gen_results w (gen_calls w) = None →
  ∃ w',
    summarize_conversation chat_history existing_summary w = (Ok tt, w') ∧
    db_memory w' = db_memory w ∧
    stored_summary w' = stored_summary w ∧
    store_calls w' = store_calls w ∧
    Forall (λ e, is_store_write e = false) (events_since w w').
Proof.
  intros Hgen. rewrite summarize_conversation_eq. cbv zeta. rewrite Hgen.
  eexists. split; [reflexivity|]. cbn_world. repeat split.
  erewrite events_since_app by reflexivity. repeat constructor.
Qed.

Lemma summarizer_failure_keeps_memory_witness :
  ∃ w',
    summarize_conversation sample_chat "User likes tea."
      (sample_world sample_chat 5 store_up never_answers) = (Ok tt, w') ∧
    stored_summary w' = "User likes tea.".
Proof.
  destruct (summarizer_failure_keeps_memory sample_chat "User likes tea."
              (sample_world sample_chat 5 store_up never_answers))
    as (w' & Hrun & _ & Hsummary & _); [reflexivity|].
  exists w'. split; [exact Hrun|]. rewrite Hsummary. reflexivity.
Defined.

(** ** Replies *)

Lemma summarizer_events_start (w : World) :
  count_events is_summarizer_start (summarizer_events w) = 1%nat.
Proof.
  unfold summarizer_events.
  destruct (summary_generation w); [destruct (memory_write_fails w)|]; reflexivity.
Qed.

Lemma reply_path_starts (n : nat) (w : World) :
  count_events is_summarizer_start
    (read_events n w true ++ reply_events w ++
       [MessagesAdd USER_ID "ai" (reply_text w) true; Print LogAIResponseSent]) = 0%nat.
Proof.
  unfold read_events, memory_read_events, reply_events.
  destruct (memory_read_fails w), (reply_generation w); reflexivity.
Qed.

(** C10. When the counter reaches the threshold, the summarizer is started
    once and the counter is 0 afterwards, whatever the summarizer's
    generation call and memory write did; with a failed generation the
    memory is unchanged and no memory write is attempted. *)
Theorem counter_reset_whatever_summarizer_did (batch : list Message) (w : World) :
  batch ≠ [] →
  history_read_fails w = false →
  history_window w ≠ [] →
  reply_write_fails w = false →
  SUMMARY_INTERVAL <= user_messages_since_last_summary w + Z.of_nat (length batch) →
  ∃ w',
    process_new_messages batch w = (Ok tt, w') ∧
    count_events is_summarizer_start (events_since w w') = 1%nat ∧
    user_messages_since_last_summary w' = 0 ∧
    (summary_generation w = None →
     db_memory w' = db_memory w ∧
     Forall (λ e, is_memory_write e = false) (events_since w w')).
Proof.
  intros Hbatch Hread Hwindow Hwrite Hreached.
  rewrite (process_new_messages_eq _ _ Hbatch).
  destruct (pipeline_replies (length batch) w Hread Hwindow Hwrite)
    as (w' & Hrun & _ & Hmemory & Hcounter & Htrace & _).
  assert (threshold_reached (length batch) w = true) as Hthreshold
    by (unfold threshold_reached; lia).
  rewrite Hthreshold in *.
  exists w'. split; [exact Hrun|].
  rewrite (events_since_app _ _ _ Htrace).
  split; [|split; [exact Hcounter|]].
  - rewrite !app_assoc, count_events_app, summarizer_events_start.
    rewrite <- !app_assoc. simpl app at 2. rewrite reply_path_starts. done.
  - intros Hsummary. split.
    + rewrite Hmemory. unfold summarized_memory. by rewrite Hsummary.
    + unfold read_events, memory_read_events, reply_events, summarizer_events.
      rewrite Hsummary.
      destruct (memory_read_fails w), (reply_generation w); repeat constructor.
Qed.

Lemma counter_reset_whatever_summarizer_did_witness :
  ∃ w',
    process_new_messages sample_chat (sample_world sample_chat 4 store_up answers_once)
      = (Ok tt, w') ∧
    user_messages_since_last_summary w' = 0 ∧
    stored_summary w' = "User likes tea.".
Proof.
  destruct (counter_reset_whatever_summarizer_did sample_chat
              (sample_world sample_chat 4 store_up answers_once))
    as (w' & Hrun & _ & Hcounter & Hfailed);
    [done|reflexivity|by vm_compute|reflexivity|by vm_compute|].
  exists w'. split; [exact Hrun|]. split; [exact Hcounter|].
  destruct (Hfailed eq_refl) as [Hmemory _].
  unfold stored_summary. rewrite Hmemory. reflexivity.
Defined.

(** C6. When the generation call for the reply fails, the message the
    pipeline saves for the batch is an AI message whose text is the fixed
    fallback string, and it is the one message added to the conversation. *)
Theorem fallback_reply_on_generation_failure (batch : list Message) (w : World) :
  batch ≠ [] →
  history_read_fails w = false →
  history_window w ≠ [] →
  reply_generation w = None →
  reply_write_fails w = false →
  ∃ w',
    process_new_messages batch w = (Ok tt, w') ∧
    messages_of w' USER_ID =
      messages_of w USER_ID ++
        [mkMessage "ai"
           "I'm having a little trouble thinking right now. Please try again in a moment."
           (server_time w)] ∧
    MessagesAdd USER_ID "ai"
      "I'm having a little trouble thinking right now. Please try again in a moment." true
      ∈ events_since w w'.
Proof.
  intros Hbatch Hread Hwindow Hgen Hwrite.
  rewrite (process_new_messages_eq _ _ Hbatch).
  destruct (pipeline_replies (length batch) w Hread Hwindow Hwrite)
    as (w' & Hrun & Hdb & _ & _ & Htrace & _).
  exists w'. split; [exact Hrun|].
  assert (reply_text w = REPLY_FALLBACK) as Htext
    by (unfold reply_text; by rewrite Hgen).
  rewrite Htext in *. split.
  - apply messages_of_with_reply in Hdb as [Hmine _]. by rewrite Hmine, Htext.
  - rewrite (events_since_app _ _ _ Htrace).
    rewrite !elem_of_app. right. right. left. apply elem_of_cons. by left.
Qed.

Lemma fallback_reply_on_generation_failure_witness :
  ∃ w',
    process_new_messages sample_chat (sample_world sample_chat 0 store_up never_answers)
      = (Ok tt, w') ∧
    messages_of w' USER_ID =
      sample_chat ++
        [mkMessage "ai"
           "I'm having a little trouble thinking right now. Please try again in a moment."
           2].
Proof.
  destruct (fallback_reply_on_generation_failure sample_chat
              (sample_world sample_chat 0 store_up never_answers))
    as (w' & Hrun & Hmessages & _);
    [done|reflexivity|by vm_compute|reflexivity|reflexivity|].
  exists w'. split; [exact Hrun|exact Hmessages].
Defined.

(** C2. A snapshot that carries at least one added user message, all of
    them stored in the collection, with the store answering the history
    read and the reply write: exactly one message is appended to the
    collection, an AI message, whether the generation call succeeds or
    fails, and the collections of other users are untouched. *)
Theorem one_reply_per_batch (changes : list DocumentChange) (w : World) :
  new_user_messages changes ≠ [] →
  (∀ m, m ∈ new_user_messages changes → m ∈ messages_of w USER_ID) →
  history_read_fails w = false →
  reply_write_fails w = false →
  ∃ w' reply,
    on_snapshot changes w = (Ok tt, w') ∧
    messages_of w' USER_ID = messages_of w USER_ID ++ [reply] ∧
    sender reply = "ai" ∧
    text reply = default REPLY_FALLBACK (reply_generation w) ∧
    count_events is_reply_saved (events_since w w') = 1%nat ∧
    ∀ user, user ≠ USER_ID → messages_of w' user = messages_of w user.
Proof.
  intros Hbatch Hstored Hread Hwrite.
  assert (history_window w ≠ []) as Hwindow.
  { rewrite history_window_nil_iff. intros Hnil.
    destruct (new_user_messages changes) as [|m ms]; [done|].
    specialize (Hstored m). rewrite Hnil in Hstored.
    eapply not_elem_of_nil, Hstored. apply elem_of_cons. by left. }
  rewrite (on_snapshot_eq _ _ Hbatch).
  destruct (pipeline_replies (length (new_user_messages changes)) w Hread Hwindow Hwrite)
    as (w' & Hrun & Hdb & _ & _ & Htrace & _).
  apply messages_of_with_reply in Hdb as [Hmine Hothers].
  exists w', (mkMessage "ai" (reply_text w) (server_time w)).
  split; [exact Hrun|]. split; [exact Hmine|].
  split; [reflexivity|]. split; [reflexivity|]. split; [|exact Hothers].
  rewrite (events_since_app _ _ _ Htrace).
  unfold read_events, memory_read_events, reply_events, summarizer_events.
  destruct (memory_read_fails w), (reply_generation w),
    (threshold_reached _ w), (summary_generation w), (memory_write_fails w);
    reflexivity.
Qed.

Lemma one_reply_per_batch_witness :
  ∃ w' reply,
    on_snapshot
      [mkChange ADDED (mkMessage "user" "Hi Aura" 0);
       mkChange ADDED (mkMessage "ai" "Hello!" 5);
       mkChange MODIFIED (mkMessage "user" "edited" 6);
       mkChange ADDED (mkMessage "user" "I had a long day" 1)]
      (sample_world sample_chat 0 store_up never_answers) = (Ok tt, w') ∧
    messages_of w' USER_ID = sample_chat ++ [reply] ∧
    sender reply = "ai".
Proof.
  destruct (one_reply_per_batch
              [mkChange ADDED (mkMessage "user" "Hi Aura" 0);
               mkChange ADDED (mkMessage "ai" "Hello!" 5);
               mkChange MODIFIED (mkMessage "user" "edited" 6);
               mkChange ADDED (mkMessage "user" "I had a long day" 1)]
              (sample_world sample_chat 0 store_up never_answers))
    as (w' & reply & Hrun & Hmessages & Hsender & _);
    [by vm_compute| |reflexivity|reflexivity|].
  - intros m Hm. vm_compute in Hm. vm_compute. exact Hm.
  - exists w', reply. split; [exact Hrun|]. split; [exact Hmessages|exact Hsender].
Defined.

(** ** Order of the reply and the summarizer *)

Lemma is_reply_saved_inv (e : Event) :
  is_reply_saved e = true → ∃ reply, e = MessagesAdd USER_ID "ai" reply true.
Proof.
  destruct e as [| | |user s t ok| | |]; try discriminate.
  destruct ok; [|discriminate]. simpl.
  intros [Huser Hsender]%andb_prop.
  apply String.eqb_eq in Huser, Hsender. subst. by exists t.
Qed.

(** In every path of the pipeline, what the summarizer does comes after the
    event of the saved reply. *)
Lemma pipeline_guarded (n : nat) (w : World) :
  ∃ evs,
    trace (snd (pipeline_outcome n w)) = trace w ++ evs ∧
    guarded_by is_reply_saved is_summarizer_event false evs = true.
Proof.
  unfold pipeline_outcome.
  destruct (history_read_fails w); [|destruct (history_window w) as [|h0 hs]];
    [| |destruct (reply_write_fails w); [|destruct (threshold_reached n w)]];
    (eexists; split; [reflexivity|]);
    unfold read_events, memory_read_events, reply_events, summarizer_events;
    destruct (memory_read_fails w);
    try destruct (reply_generation w);
    try (destruct (summary_generation w); [destruct (memory_write_fails w)|]);
    reflexivity.
Qed.

(** C8. In any run of the pipeline, every event of the summarizer (its
    lines, its generation request, its memory write) has, earlier in the
    same run, the event of the AI reply written to the message store. *)
Theorem summarizer_only_after_reply_saved (batch : list Message) (w : World)
    (pre post : list Event) (e : Event) :
  events_since w (snd (process_new_messages batch w)) = pre ++ e :: post →
  is_summarizer_event e = true →
  ∃ reply, MessagesAdd USER_ID "ai" reply true ∈ pre.
Proof.
  intros Hsplit Hsummarizer.
  destruct batch as [|m ms].
  - rewrite process_new_messages_nil in Hsplit. unfold events_since in Hsplit.
    simpl in Hsplit. rewrite drop_all in Hsplit. by destruct pre.
  - rewrite process_new_messages_eq in Hsplit by done.
    destruct (pipeline_guarded (length (m :: ms)) w) as (evs & Htrace & Hguarded).
    rewrite (events_since_app _ _ _ Htrace) in Hsplit.
    destruct (guarded_by_sound _ _ _ _ Hguarded _ _ _ Hsplit Hsummarizer)
      as [?|(g & Hin & Hsaved)]; [done|].
    apply is_reply_saved_inv in Hsaved as [reply ->]. by exists reply.
Qed.

Lemma summarizer_only_after_reply_saved_witness :
  ∃ reply,
    MessagesAdd USER_ID "ai" reply true ∈
      [Print (LogProcessing 2); MemoryGet USER_ID true; MessagesQuery USER_ID 15 true;
       Generate (reply_request sample_chat "User likes tea.") true;
       MessagesAdd USER_ID "ai" "I am here for you." true;
       Print LogAIResponseSent].
Proof.
  apply (summarizer_only_after_reply_saved sample_chat
           (sample_world sample_chat 3 store_up always_answers) _
           [Generate (summary_request sample_chat "User likes tea.") true;
            MemorySet USER_ID "I am here for you." true;
            Print LogMemoryUpdated]
           (Print LogSummarizing)); reflexivity.
Defined.

(** ** History retrieval *)

(** The reply request of a run holds the window the run has read, whether
    or not the reply is then written. *)
Lemma pipeline_reply_request (n : nat) (w : World) :
  history_read_fails w = false →
  history_window w ≠ [] →
  ∃ ok,
    Generate (reply_request (history_window w) (user_memory_read w)) ok
      ∈ events_since w (snd (pipeline_outcome n w)).
Proof.
  intros Hread Hwindow. unfold pipeline_outcome. rewrite Hread.
  destruct (history_window w) as [|h0 hs] eqn:Hw; [done|].
  exists (match reply_generation w with Some _ => true | None => false end).
  destruct (reply_write_fails w); [|destruct (threshold_reached n w)]; cbn [snd].
  all: erewrite events_since_app by reflexivity.
  all: unfold reply_events; rewrite Hw.
  all: rewrite !elem_of_app; right; left.
  all: destruct (reply_generation w); apply elem_of_cons; by left.
Qed.

Lemma pipeline_history_query (n : nat) (w : World) :
  history_read_fails w = false →
  MessagesQuery USER_ID 15 true ∈ events_since w (snd (pipeline_outcome n w)).
Proof.
  intros Hread. unfold pipeline_outcome. rewrite Hread.
  destruct (history_window w) as [|h0 hs];
    [|destruct (reply_write_fails w); [|destruct (threshold_reached n w)]]; cbn [snd].
  all: erewrite events_since_app by reflexivity.
  all: rewrite ?elem_of_app; try left.
  all: unfold read_events; rewrite elem_of_cons, elem_of_app; right; right.
  all: apply elem_of_cons; by left.
Qed.

(** C7. A run of the pipeline on a non-empty batch, the store answering the
    history query: the query asks for 15 messages; with 20 stored messages
    the chat history the run sends to the generation service holds 15 of
    them, oldest first, and the 5 left out are no newer than any of the 15;
    with no stored message the history is empty, and the run returns without
    generating or writing anything. *)
Theorem pipeline_reads_most_recent_15 (batch : list Message) (w : World) :
  batch ≠ [] →
  history_read_fails w = false →
  MessagesQuery USER_ID 15 true ∈ events_since w (snd (process_new_messages batch w)) ∧
  (length (messages_of w USER_ID) = 20%nat →
   ∃ chat_history cut ok,
     Generate (reply_request chat_history (user_memory_read w)) ok
       ∈ events_since w (snd (process_new_messages batch w)) ∧
     length chat_history = 15%nat ∧
     Sorted older_first chat_history ∧
     chat_history ++ cut ≡ₚ messages_of w USER_ID ∧
     length cut = 5%nat ∧
     ∀ old kept, old ∈ cut → kept ∈ chat_history → timestamp old <= timestamp kept) ∧
  (messages_of w USER_ID = [] →
   fst (process_new_messages batch w) = Ok tt ∧
   Forall (λ e, is_generation e = false ∧ is_store_write e = false)
          (events_since w (snd (process_new_messages batch w)))).
Proof.
  intros Hbatch Hread. rewrite (process_new_messages_eq _ _ Hbatch).
  split; [by apply pipeline_history_query|]. split.
  - intros Hlen.
    assert (history_window w ≠ []) as Hwindow.
    { rewrite history_window_nil_iff. intros Hnil. by rewrite Hnil in Hlen. }
    destruct (pipeline_reply_request (length batch) w Hread Hwindow) as [ok Hrequest].
    destruct (recent_window_most_recent 15 (messages_of w USER_ID)) as [Hperm Hnewer].
    exists (history_window w), (drop 15 (Firestore.order_by_timestamp_desc (messages_of w USER_ID))), ok.
    split; [exact Hrequest|]. unfold history_window.
    split; [by rewrite recent_window_length, Hlen|].
    split; [apply recent_window_sorted|]. split; [exact Hperm|]. split; [|exact Hnewer].
    by rewrite length_drop, (Permutation_length (order_by_timestamp_desc_perm _)), Hlen.
  - intros Hnil. apply history_window_nil_iff in Hnil.
    rewrite (pipeline_empty_window _ _ Hread Hnil). cbn [fst snd]. split; [done|].
    erewrite events_since_app by reflexivity.
    eapply Forall_impl; [apply read_events_quiet|]. by intros e (? & ? & _).
Qed.

Lemma pipeline_reads_most_recent_15_witness :
  ∃ chat_history ok,
    Generate
      (reply_request chat_history
         (user_memory_read (sample_world twenty_messages 0 store_up always_answers))) ok
      ∈ events_since (sample_world twenty_messages 0 store_up always_answers)
          (snd (process_new_messages sample_chat
                  (sample_world twenty_messages 0 store_up always_answers))) ∧
    length chat_history = 15%nat ∧
    Sorted older_first chat_history.
Proof.
  destruct (pipeline_reads_most_recent_15 sample_chat
              (sample_world twenty_messages 0 store_up always_answers))
    as (_ & Htwenty & _); [done|reflexivity|].
  destruct Htwenty as (chat_history & cut & ok & Hrequest & Hlen & Hsorted & _);
    [reflexivity|].
  exists chat_history, ok. split; [exact Hrequest|]. split; [exact Hlen|exact Hsorted].
Defined.

(** The window of the sample: timestamps 5 to 19, in order. *)
Example twenty_messages_window :
  map timestamp (recent_window 15 twenty_messages) =
  [5; 6; 7; 8; 9; 10; 11; 12; 13; 14; 15; 16; 17; 18; 19].
Proof. reflexivity. Qed.

(** ** The counter over a sequence of batches *)

Lemma process_batch_run (batch : list Message) (w : World) :
  batch ≠ [] →
  messages_of w USER_ID ≠ [] →
  (∀ k, store_fails w k = false) →
  ∃ w' evs,
    process_new_messages batch w = (Ok tt, w') ∧
    user_messages_since_last_summary w' =
      counter_after (user_messages_since_last_summary w) (length batch) ∧
    trace w' = trace w ++ evs ∧
    count_events is_summarizer_start evs =
      crossings (user_messages_since_last_summary w) [length batch] ∧
    messages_of w' USER_ID ≠ [] ∧
    (∀ k, store_fails w' k = false).
Proof.
  intros Hbatch Hstored Hstore.
  assert (history_window w ≠ []) as Hwindow by by rewrite history_window_nil_iff.
  rewrite (process_new_messages_eq _ _ Hbatch).
  destruct (pipeline_replies (length batch) w (Hstore _) Hwindow (Hstore _))
    as (w' & Hrun & Hdb & _ & Hcounter & Htrace & Hfails & _).
  exists w'. eexists. split; [exact Hrun|]. split; [exact Hcounter|].
  split; [exact Htrace|]. split; [|split].
  - rewrite !app_assoc, count_events_app, <- !app_assoc. simpl app at 2.
    rewrite reply_path_starts. unfold crossings, threshold_reached.
    destruct (SUMMARY_INTERVAL <=? _); [by rewrite summarizer_events_start|done].
  - apply messages_of_with_reply in Hdb as [-> _]. by destruct (messages_of w USER_ID).
  - intros k. by rewrite Hfails.
Qed.

Lemma crossings_cons (c : Z) (size : nat) (sizes : list nat) :
  crossings c (size :: sizes) =
  (crossings c [size] + crossings (counter_after c size) sizes)%nat.
Proof. simpl. lia. Qed.

Lemma process_batches_run (batches : list (list Message)) :
  ∀ w,
    Forall (λ b, b ≠ []) batches →
    messages_of w USER_ID ≠ [] →
    (∀ k, store_fails w k = false) →
    ∃ w' evs,
      process_batches batches w = (Ok tt, w') ∧
      user_messages_since_last_summary w' =
        foldl counter_after (user_messages_since_last_summary w) (map length batches) ∧
      trace w' = trace w ++ evs ∧
      count_events is_summarizer_start evs =
        crossings (user_messages_since_last_summary w) (map length batches).
Proof.
  induction batches as [|batch batches IH]; intros w Hall Hstored Hstore.
  - exists w, []. repeat split. by rewrite app_nil_r.
  - apply Forall_cons in Hall as [Hbatch Hall].
    destruct (process_batch_run batch w Hbatch Hstored Hstore)
      as (w1 & evs1 & Hrun1 & Hcounter1 & Htrace1 & Hcount1 & Hstored1 & Hstore1).
    destruct (IH w1 Hall Hstored1 Hstore1)
      as (w' & evs & Hrun & Hcounter & Htrace & Hcount).
    exists w', (evs1 ++ evs).
    unfold process_batches in *. cbn [for_each]. unfold bind at 1. rewrite Hrun1.
    split; [exact Hrun|]. cbn [map foldl]. rewrite <- Hcounter1.
    split; [exact Hcounter|]. split.
    + by rewrite Htrace, Htrace1, app_assoc.
    + rewrite crossings_cons, <- Hcounter1, count_events_app, Hcount1, Hcount. done.
Qed.

(** When every crossing lands on the threshold exactly, as with batches of
    one message, the counter is the sum modulo the threshold. *)
Lemma counter_after_singles (k : nat) :
  ∀ c, 0 <= c < SUMMARY_INTERVAL →
       foldl counter_after c (replicate k 1%nat) = (c + Z.of_nat k) mod SUMMARY_INTERVAL.
Proof.
  unfold SUMMARY_INTERVAL.
  induction k as [|k IH]; intros c Hc; cbn [replicate foldl].
  - rewrite Z.add_0_r, Z.mod_small; lia.
  - unfold counter_after at 2. unfold SUMMARY_INTERVAL.
    destruct (Z.leb_spec 5 (c + Z.of_nat 1)) as [Hle|Hlt].
    + rewrite IH by lia. assert (c = 4) as -> by lia.
      replace (4 + Z.of_nat (S k)) with (0 + Z.of_nat k + 1 * 5) by lia.
      by rewrite Z.mod_add.
    + rewrite IH by lia. f_equal. lia.
Qed.

(** C1, amended. After a sequence of non-empty batches that all get their
    reply, the counter is what adding each batch size and resetting to 0 at
    every threshold crossing gives, and the summarizer has started once per
    crossing.  For sizes 2, 2, 2 from a counter of 0 the summarizer starts
    once, in the third batch, and the counter is then 0.  With batches of
    one message the counter is the sum modulo 5. *)
Theorem counter_resets_at_crossings (batches : list (list Message)) (w : World) :
  Forall (λ b, b ≠ []) batches →
  messages_of w USER_ID ≠ [] →
  (∀ k, store_fails w k = false) →
  ∃ w',
    process_batches batches w = (Ok tt, w') ∧
    user_messages_since_last_summary w' =
      foldl counter_after (user_messages_since_last_summary w) (map length batches) ∧
    count_events is_summarizer_start (events_since w w') =
      crossings (user_messages_since_last_summary w) (map length batches) ∧
    (user_messages_since_last_summary w = 0 →
     map length batches = [2; 2; 2]%nat →
     user_messages_since_last_summary w' = 0 ∧
     count_events is_summarizer_start (events_since w w') = 1%nat ∧
     ∃ w2,
       process_batches (take 2 batches) w = (Ok tt, w2) ∧
       user_messages_since_last_summary w2 = 4 ∧
       count_events is_summarizer_start (events_since w w2) = 0%nat) ∧
    (0 <= user_messages_since_last_summary w < SUMMARY_INTERVAL →
     Forall (λ b, length b = 1%nat) batches →
     user_messages_since_last_summary w' =
       (user_messages_since_last_summary w + Z.of_nat (length batches))
         mod SUMMARY_INTERVAL).
Proof.
  intros Hall Hstored Hstore.
  destruct (process_batches_run batches w Hall Hstored Hstore)
    as (w' & evs & Hrun & Hcounter & Htrace & Hcount).
  exists w'. split; [exact Hrun|]. split; [exact Hcounter|].
  rewrite (events_since_app _ _ _ Htrace). split; [exact Hcount|]. split.
  - intros Hzero Hsizes. rewrite Hcounter, Hcount, Hzero, Hsizes.
    split; [reflexivity|]. split; [reflexivity|].
    destruct (process_batches_run (take 2 batches) w) as (w2 & evs2 & Hrun2 & Hcounter2 & Htrace2 & Hcount2);
      [by apply Forall_take|done|done|].
    exists w2. split; [exact Hrun2|].
    rewrite (events_since_app _ _ _ Htrace2), Hcounter2, Hcount2, Hzero.
    rewrite <- firstn_map, Hsizes. split; reflexivity.
  - intros Hrange Hsingles. rewrite Hcounter.
    replace (map length batches) with (replicate (length batches) 1%nat).
    + by apply counter_after_singles.
    + clear -Hsingles. induction Hsingles as [|b bs Hb _ IH]; [done|].
      cbn [length replicate map]. by rewrite Hb, IH.
Qed.

Lemma counter_resets_at_crossings_witness :
  ∃ w',
    process_batches [sample_chat; sample_chat; sample_chat]
      (sample_world sample_chat 0 store_up always_answers) = (Ok tt, w') ∧
    user_messages_since_last_summary w' = 0 ∧
    count_events is_summarizer_start
      (events_since (sample_world sample_chat 0 store_up always_answers) w') = 1%nat.
Proof.
  destruct (counter_resets_at_crossings [sample_chat; sample_chat; sample_chat]
              (sample_world sample_chat 0 store_up always_answers))
    as (w' & Hrun & _ & _ & Hthree & _);
    [repeat constructor; done|by vm_compute|reflexivity|].
  destruct Hthree as (Hcounter & Hcount & _); [reflexivity|reflexivity|].
  exists w'. split; [exact Hrun|]. split; [exact Hcounter|exact Hcount].
Defined.

(** C1, as stated, fails: after batches of sizes 2, 2, 2 with a reply each,
    the summarizer has started once and the counter is 0, which is not
    [(2 + 2 + 2) mod 5]. *)
Lemma counter_is_not_sum_mod_5 :
  let w := sample_world sample_chat 0 store_up always_answers in
  let w' := snd (process_batches [sample_chat; sample_chat; sample_chat] w) in
  map length [sample_chat; sample_chat; sample_chat] = [2; 2; 2]%nat ∧
  fst (process_batches [sample_chat; sample_chat; sample_chat] w) = Ok tt ∧
  count_events is_summarizer_start (events_since w w') = 1%nat ∧
  user_messages_since_last_summary w' = 0 ∧
  user_messages_since_last_summary w' ≠ (2 + 2 + 2) mod 5.
Proof. vm_compute. repeat split; discriminate. Qed.

(** ** Store errors *)

(** C3 fails on the code. The reply write and the history read of the
    pipeline, and the message write of the single-tenant check-in jobs, are
    outside any [try]: a store error there leaves [on_snapshot] and the job,
    and the conversation gets no reply.  The multi-tenant
    [send_checkin_message_to_user] catches the same error. *)
Theorem store_error_escapes_pipeline :
  let changes := [mkChange ADDED (mkMessage "user" "Hi Aura" 0)] in
  let reply_write_down := sample_world sample_chat 0 (fails_at 2) always_answers in
  let history_read_down := sample_world sample_chat 0 (fails_at 1) always_answers in
  let checkin_write_down := sample_world sample_chat 0 (fails_at 1) always_answers in
  let fan_out_write_down := sample_world sample_chat 0 (fails_at 0) always_answers in
  fst (on_snapshot changes reply_write_down) = Raise StoreError ∧
  messages_of (snd (on_snapshot changes reply_write_down)) USER_ID = sample_chat ∧
  fst (on_snapshot changes history_read_down) = Raise StoreError ∧
  fst (morning_checkin_job checkin_write_down) = Raise StoreError ∧
  fst (evening_checkin_job checkin_write_down) = Raise StoreError ∧
  fst (send_startup_message checkin_write_down) = Raise StoreError ∧
  fst (CheckinScheduler.send_checkin_message_to_user USER_ID
         CheckinScheduler.MORNING_PROMPT fan_out_write_down) = Ok tt.
Proof. vm_compute. repeat split. Qed.

(** ** Check-ins and the memory *)

Lemma prefix_refl (s : string) : String.prefix s s = true.
Proof.
  induction s as [|a s IH]; [done|]. simpl.
  by destruct (Ascii.ascii_dec a a).
Qed.

Lemma contains_refl (s : string) : Py.contains s s = true.
Proof. destruct s; cbn [Py.contains]; by rewrite prefix_refl. Qed.

Lemma contains_append_r (a b needle : string) :
  Py.contains b needle = true → Py.contains (a +:+ b) needle = true.
Proof.
  intros Hb. induction a as [|c a IH]; [done|].
  change (Py.contains (String c a +:+ b) needle) with
    (String.prefix needle (String c (a +:+ b)) || Py.contains (a +:+ b) needle).
  rewrite IH. apply orb_true_r.
Qed.

Lemma dynamic_system_prompt_some (summary : string) :
  summary ≠ EmptyString →
  dynamic_system_prompt summary = BASE_SYSTEM_PROMPT +:+ memory_block summary.
Proof. by destruct summary. Qed.

Lemma proactive_request_mentions (prompt summary : string) :
  summary ≠ EmptyString →
  request_mentions summary (proactive_request prompt summary) = true.
Proof.
  intros Hne. unfold request_mentions, proactive_request, request_strings.
  cbn [system_instruction contents app existsb].
  rewrite (dynamic_system_prompt_some _ Hne). unfold memory_block.
  apply orb_true_iff. left.
  do 5 apply contains_append_r. apply contains_refl.
Qed.

(** The three single-tenant check-ins are one piece of code, up to the
    lines they print and their prompt. *)
Lemma checkin_job_eq (v : Checkin) :
  checkin_job v =
  (print (checkin_started v) ;;
   user_memory <- get_user_memory ;;
   message_text <- generate_proactive_message (checkin_prompt v) user_memory ;;
   Firestore.messages_add USER_ID "ai" message_text ;;
   print (checkin_sent v message_text))%task.
Proof. by destruct v. Qed.

Lemma checkin_job_run (v : Checkin) (summary : string) (w : World) :
  store_fails w (store_calls w) = false →
  db_memory w !! USER_ID = Some (Some summary) →
  store_fails w (S (store_calls w)) = false →
  ∃ w',
    checkin_job v w = (Ok tt, w') ∧
    let request := proactive_request (checkin_prompt v) summary in
    let reply := default PROACTIVE_FALLBACK (gen_results w (gen_calls w)) in
    trace w' =
      trace w ++
        [Print (checkin_started v); MemoryGet USER_ID true] ++
        match gen_results w (gen_calls w) with
        | Some _ => [Generate request true]
        | None => [Generate request false; Print LogProactiveError]
        end ++
        [MessagesAdd USER_ID "ai" reply true; Print (checkin_sent v reply)] ∧
    messages_of w' USER_ID =
      messages_of w USER_ID ++ [mkMessage "ai" reply (server_time w)].
Proof.
  intros Hread Hdoc Hwrite. rewrite checkin_job_eq.
  destruct w as [msgs mem users now sf sc gr gc cnt tr].
  cbn_world. cbn [store_fails store_calls db_memory] in Hread, Hdoc, Hwrite.
  unfold bind at 1 2. unfold print at 1, emit, modify.
  rewrite get_user_memory_eq. unfold stored_summary. cbn_world.
  rewrite Hread, Hdoc. cbn [default from_option id].
  unfold bind at 1. rewrite generate_proactive_message_eq. cbn_world.
  destruct (gr gc) as [answer|].
  all: unfold bind at 1; rewrite messages_add_eq; cbn_world; rewrite Hwrite.
  all: unfold print, emit, modify; cbn_world.
  all: eexists; split; [reflexivity|]; cbn_world.
  all: unfold messages_of; cbn_world; rewrite lookup_insert_eq.
  all: split; [by rewrite <- !app_assoc|done].
Qed.

(** *** The multi-tenant jobs *)

Lemma fan_out_generate_eq (prompt : string) (w : World) :
  CheckinScheduler.generate_proactive_message prompt w =
  match gen_results w (gen_calls w) with
  | Some t =>
      (Ok t, logged [Generate (CheckinScheduler.proactive_request prompt) true]
                    (set_gen_calls S w))
  | None =>
      (Ok CheckinScheduler.PROACTIVE_FALLBACK,
       logged [Generate (CheckinScheduler.proactive_request prompt) false;
               Print LogGenerateError] (set_gen_calls S w))
  end.
Proof.
  unfold CheckinScheduler.generate_proactive_message, try_except.
  rewrite generate_content_eq.
  destruct (gen_results w (gen_calls w)); [reflexivity|].
  unfold_task. f_equal. world_eq.
Qed.

(** Sending to one user never raises, and reads no memory. *)
Lemma send_checkin_run (user_id prompt : string) (w : World) :
  ∃ w' evs,
    CheckinScheduler.send_checkin_message_to_user user_id prompt w = (Ok tt, w') ∧
    trace w' = trace w ++ evs ∧
    Forall (fan_out_event prompt) evs.
Proof.
  unfold CheckinScheduler.send_checkin_message_to_user.
  destruct (Py.truthy user_id).
  - unfold bind at 1 2. unfold print at 1, emit, modify.
    rewrite fan_out_generate_eq. cbn_world.
    destruct (gen_results w (gen_calls w)) as [answer|].
    all: unfold try_except, bind; rewrite messages_add_eq; cbn_world.
    all: destruct (store_fails w (store_calls w)); unfold print, emit, modify; cbn_world.
    all: eexists _, _; split; [reflexivity|]; cbn_world; rewrite <- ?app_assoc.
    all: split; [reflexivity|repeat constructor].
  - exists w, []. split; [done|]. by rewrite app_nil_r.
Qed.

Lemma fan_out_loop_run (prompt : string) (user_ids : list string) :
  ∀ w, ∃ w' evs,
    for_each user_ids
      (λ user_id, CheckinScheduler.send_checkin_message_to_user user_id prompt) w
      = (Ok tt, w') ∧
    trace w' = trace w ++ evs ∧
    Forall (fan_out_event prompt) evs.
Proof.
  induction user_ids as [|user_id rest IH]; intros w.
  - exists w, []. split; [done|]. by rewrite app_nil_r.
  - destruct (send_checkin_run user_id prompt w) as (w1 & evs1 & Hsend & Htrace1 & Hall1).
    destruct (IH w1) as (w' & evs & Hrest & Htrace & Hall).
    exists w', (evs1 ++ evs). cbn [for_each]. unfold bind at 1. rewrite Hsend.
    split; [exact Hrest|]. split.
    + by rewrite Htrace, Htrace1, app_assoc.
    + by apply Forall_app.
Qed.

Lemma get_all_user_ids_run (prompt : string) (w : World) :
  ∃ user_ids w' evs,
    CheckinScheduler.get_all_user_ids w = (Ok user_ids, w') ∧
    trace w' = trace w ++ evs ∧
    Forall (fan_out_event prompt) evs.
Proof.
  unfold CheckinScheduler.get_all_user_ids, Firestore.users_stream. unfold_task.
  destruct (store_fails w (store_calls w)); cbn_world.
  all: eexists _, _, _; split; [reflexivity|]; cbn_world; rewrite <- ?app_assoc.
  all: split; [reflexivity|repeat constructor].
Qed.

Lemma fan_out_job_eq (j : FanOut) :
  fan_out_job j =
  (print LogJobStarted ;;
   user_ids <- CheckinScheduler.get_all_user_ids ;;
   for_each user_ids
     (λ user_id,
        CheckinScheduler.send_checkin_message_to_user user_id (fan_out_prompt j)) ;;
   print LogJobFinished)%task.
Proof. by destruct j. Qed.

Lemma fan_out_job_run (j : FanOut) (w : World) :
  ∃ w' evs,
    fan_out_job j w = (Ok tt, w') ∧
    trace w' = trace w ++ evs ∧
    Forall (fan_out_event (fan_out_prompt j)) evs.
Proof.
  rewrite fan_out_job_eq. unfold bind at 1. unfold print at 1, emit, modify.
  destruct (get_all_user_ids_run (fan_out_prompt j)
              (set_trace (λ t, t ++ [Print LogJobStarted]) w))
    as (user_ids & w1 & evs1 & Hids & Htrace1 & Hall1).
  unfold bind at 1. rewrite Hids.
  destruct (fan_out_loop_run (fan_out_prompt j) user_ids w1)
    as (w2 & evs2 & Hloop & Htrace2 & Hall2).
  unfold bind at 1. rewrite Hloop. unfold print, emit, modify.
  eexists _, _. split; [reflexivity|]. cbn_world. split.
  - rewrite Htrace2, Htrace1. cbn_world. rewrite <- !app_assoc. reflexivity.
  - apply Forall_app. split; [repeat constructor|].
    apply Forall_app. split; [done|]. apply Forall_app. split; [done|].
    repeat constructor.
Qed.

(** C4, as stated, fails for the multi-tenant scheduler: the morning job
    sends alice, whose memory is not empty, a message generated from the
    fixed prompt alone; nothing of the request holds the summary and the
    memory document is never read. *)
Lemma fan_out_checkin_ignores_memory :
  let request := CheckinScheduler.proactive_request CheckinScheduler.MORNING_PROMPT in
  let w' := snd (CheckinScheduler.morning_checkin_job tenants_world) in
  db_memory tenants_world !! "alice" = Some (Some "User loves hiking.") ∧
  events_since tenants_world w' =
    [Print LogJobStarted; UsersStream true; Print (LogFoundUsers ["alice"]);
     Print (LogGeneratingFor "alice"); Generate request true;
     MessagesAdd "alice" "ai" "I am here for you." true;
     Print (LogSentTo "alice" "I am here for you."); Print LogJobFinished] ∧
  messages_of w' "alice" = [mkMessage "ai" "I am here for you." 0] ∧
  request_mentions "User loves hiking." request = false.
Proof. vm_compute. repeat split. Qed.

(** C4, amended. Each check-in of the single-tenant backend (startup,
    morning, evening), when the memory read goes through and finds a
    non-empty summary and the store takes the message, makes one generation
    request, whose system instruction is the base prompt followed by the
    memory block with that summary, and then appends the text that request
    was answered with (the fallback when the generation failed) as an AI
    message; the run leaves these events and no others.  The jobs of the multi-tenant scheduler
    return normally, make requests of the fixed prompt alone and read no
    memory. *)
Theorem single_tenant_checkin_personalized (v : Checkin) (summary : string) (w : World) :
  store_fails w (store_calls w) = false →
  db_memory w !! USER_ID = Some (Some summary) →
  summary ≠ EmptyString →
  store_fails w (S (store_calls w)) = false →
  (∃ w',
     let request :=
       mkRequest "gemini-2.0-flash"
                 (Some (BASE_SYSTEM_PROMPT +:+ memory_block summary))
                 (Prompt (checkin_prompt v)) None in
     let reply := default PROACTIVE_FALLBACK (gen_results w (gen_calls w)) in
     checkin_job v w = (Ok tt, w') ∧
     events_since w w' =
       [Print (checkin_started v); MemoryGet USER_ID true] ++
       match gen_results w (gen_calls w) with
       | Some _ => [Generate request true]
       | None => [Generate request false; Print LogProactiveError]
       end ++
       [MessagesAdd USER_ID "ai" reply true; Print (checkin_sent v reply)] ∧
     request_mentions summary request = true ∧
     messages_of w' USER_ID =
       messages_of w USER_ID ++ [mkMessage "ai" reply (server_time w)]) ∧
  (∀ (j : FanOut) (w0 : World),
     fst (fan_out_job j w0) = Ok tt ∧
     Forall (fan_out_event (fan_out_prompt j))
            (events_since w0 (snd (fan_out_job j w0)))).
Proof.
  intros Hread Hdoc Hsummary Hwrite. split.
  - destruct (checkin_job_run v summary w Hread Hdoc Hwrite)
      as (w' & Hrun & Htrace & Hmessages).
    cbv zeta in Htrace, Hmessages.
    pose proof (proactive_request_mentions (checkin_prompt v) summary Hsummary) as Hmentions.
    unfold proactive_request in *.
    rewrite (dynamic_system_prompt_some _ Hsummary) in *.
    apply events_since_app in Htrace.
    exists w'. cbv zeta. split; [exact Hrun|]. split; [exact Htrace|].
    split; [exact Hmentions|exact Hmessages].
  - intros j w0. destruct (fan_out_job_run j w0) as (w' & evs & Hrun & Htrace & Hall).
    rewrite Hrun. split; [done|]. cbn [snd].
    by rewrite (events_since_app _ _ _ Htrace).
Qed.

Lemma single_tenant_checkin_personalized_witness :
  ∃ w',
    checkin_job Morning (sample_world sample_chat 0 store_up always_answers) = (Ok tt, w') ∧
    request_mentions "User likes tea."
      (mkRequest "gemini-2.0-flash"
                 (Some (BASE_SYSTEM_PROMPT +:+ memory_block "User likes tea."))
                 (Prompt (checkin_prompt Morning)) None) = true ∧
    messages_of w' USER_ID =
      messages_of (sample_world sample_chat 0 store_up always_answers) USER_ID ++
        [mkMessage "ai"
           (default PROACTIVE_FALLBACK
              (gen_results (sample_world sample_chat 0 store_up always_answers)
                 (gen_calls (sample_world sample_chat 0 store_up always_answers))))
           (server_time (sample_world sample_chat 0 store_up always_answers))].
Proof.
  destruct (single_tenant_checkin_personalized Morning "User likes tea."
              (sample_world sample_chat 0 store_up always_answers))
    as [(w' & Hrun & _ & Hmentions & Hmessages) _];
    [reflexivity|reflexivity|done|reflexivity|].
  exists w'. split; [exact Hrun|]. split; [exact Hmentions|exact Hmessages].
Defined.

(** The message of the sample check-in: the generated text, after the chat. *)
Example morning_checkin_sample :
  messages_of
    (snd (morning_checkin_job (sample_world sample_chat 0 store_up always_answers)))
    USER_ID
  = sample_chat ++ [mkMessage "ai" "I am here for you." 2].
Proof. by vm_compute. Qed.

(** * Further properties of the code *)

(** ** The listener *)

Lemma new_user_messages_cons (change : DocumentChange) (rest : list DocumentChange) :
  new_user_messages (change :: rest) =
  if is_added change && String.eqb (sender (document change)) "user"
  then document change :: new_user_messages rest
  else new_user_messages rest.
Proof. reflexivity. Qed.

Lemma is_user_addition_spec (c : DocumentChange) :
  is_added c && String.eqb (sender (document c)) "user" = true ↔ is_user_addition c.
Proof.
  unfold is_user_addition, is_added. rewrite andb_true_iff, String.eqb_eq.
  destruct (change_type c); intuition congruence.
Qed.

(** The batch the listener builds holds the documents of the changes that are
    additions by the user, no others, in the order of the snapshot. *)
Lemma batch_members_are_user_additions (changes : list DocumentChange) :
  (∀ m, m ∈ new_user_messages changes ↔
        ∃ c, c ∈ changes ∧ is_user_addition c ∧ document c = m) ∧
  sublist (new_user_messages changes) (map document changes) ∧
  Forall (λ m, sender m = "user") (new_user_messages changes).
Proof.
  induction changes as [|c rest (IHin & IHsub & IHall)].
  - split; [|split; [constructor|constructor]].
    intros m. split; [by intros ?%elem_of_nil|by intros (c & ?%elem_of_nil & _)].
  - rewrite new_user_messages_cons.
    destruct (is_added c && String.eqb (sender (document c)) "user") eqn:Hc.
    + apply is_user_addition_spec in Hc. split; [|split].
      * intros m. rewrite elem_of_cons, IHin. split.
        -- intros [->|(c' & Hin & Hadd & Hdoc)].
           ++ exists c. rewrite elem_of_cons. auto.
           ++ exists c'. rewrite elem_of_cons. auto.
        -- intros (c' & [->|Hin]%elem_of_cons & Hadd & Hdoc); [by left|].
           right. by exists c'.
      * cbn [map]. by constructor.
      * constructor; [apply Hc|done].
    + split; [|split; [cbn [map]; by constructor|done]].
      intros m. rewrite IHin. split.
      * intros (c' & Hin & Hadd & Hdoc). exists c'. rewrite elem_of_cons. auto.
      * intros (c' & [->|Hin]%elem_of_cons & Hadd & Hdoc); [|by exists c'].
        apply is_user_addition_spec in Hadd. congruence.
Qed.

#[local] Instance ChangeType_eq_dec : EqDecision ChangeType.
Proof. solve_decision. Defined.

#[local] Instance is_user_addition_dec (c : DocumentChange) : Decision (is_user_addition c).
Proof. unfold is_user_addition. apply _. Defined.

Lemma new_user_messages_filter (changes : list DocumentChange) :
  new_user_messages changes = document <$> filter is_user_addition changes.
Proof.
  induction changes as [|c rest IH]; [done|].
  rewrite new_user_messages_cons, filter_cons, IH.
  destruct (is_added c && String.eqb (sender (document c)) "user") eqn:Hc.
  - apply is_user_addition_spec in Hc. by rewrite decide_True.
  - rewrite decide_False; [done|]. intros Hadd%is_user_addition_spec. congruence.
Qed.

(** X1. The batch the listener builds is the list of the documents of the
    changes that are additions by the user, one entry for each such change
    and in the order of the snapshot, and [on_snapshot] is the pipeline run
    on that batch; so the batch holds those documents and no others, and the
    size the pipeline counts is the number of such changes. *)
Theorem batch_is_user_additions (changes : list DocumentChange) :
  new_user_messages changes = document <$> filter is_user_addition changes ∧
  length (new_user_messages changes) = length (filter is_user_addition changes) ∧
  (∀ w, on_snapshot changes w =
        process_new_messages (document <$> filter is_user_addition changes) w) ∧
  (∀ m, m ∈ new_user_messages changes ↔
        ∃ c, c ∈ changes ∧ is_user_addition c ∧ document c = m) ∧
  sublist (new_user_messages changes) (map document changes) ∧
  Forall (λ m, sender m = "user") (new_user_messages changes).
Proof.
  split; [apply new_user_messages_filter|].
  split; [by rewrite new_user_messages_filter, length_fmap|].
  split; [|apply batch_members_are_user_additions].
  intros w. rewrite <- new_user_messages_filter. unfold on_snapshot.
  by destruct (new_user_messages changes).
Qed.

(** Two equal additions by the user are two entries of the batch. *)
Example batch_keeps_duplicates :
  new_user_messages
    [mkChange ADDED (mkMessage "user" "hi" 0); mkChange ADDED (mkMessage "ai" "hello" 1);
     mkChange ADDED (mkMessage "user" "hi" 0)]
  = [mkMessage "user" "hi" 0; mkMessage "user" "hi" 0].
Proof. reflexivity. Qed.

(** X2. A snapshot with no addition by the user (AI messages, modified or
    removed documents) changes nothing: not the store, not the counter, not
    even the trace. *)
Theorem snapshot_without_user_addition (changes : list DocumentChange) (w : World) :
  Forall (λ c, ¬ is_user_addition c) changes →
  on_snapshot changes w = (Ok tt, w).
Proof.
  intros Hnone. unfold on_snapshot.
  assert (new_user_messages changes = []) as ->; [|done].
  induction Hnone as [|c rest Hc _ IH]; [done|].
  rewrite new_user_messages_cons.
  destruct (is_added c && String.eqb (sender (document c)) "user") eqn:Hadd; [|done].
  by apply is_user_addition_spec in Hadd.
Qed.

Lemma snapshot_without_user_addition_witness :
  on_snapshot
    [mkChange ADDED (mkMessage "ai" "Hello!" 5);
     mkChange MODIFIED (mkMessage "user" "edited" 6);
     mkChange REMOVED (mkMessage "user" "gone" 7)]
    (sample_world sample_chat 4 store_up always_answers)
  = (Ok tt, sample_world sample_chat 4 store_up always_answers).
Proof.
  apply snapshot_without_user_addition.
  repeat constructor; unfold is_user_addition; simpl; intros [? ?]; discriminate.
Defined.

(** X3. The reply the pipeline stores does not set the pipeline off again: when
    the store notifies the listener of that addition, nothing happens. *)
Theorem listener_ignores_own_reply (changes : list DocumentChange) (w : World) :
  new_user_messages changes ≠ [] →
  history_window w ≠ [] →
  history_read_fails w = false →
  reply_write_fails w = false →
  ∃ w' reply,
    on_snapshot changes w = (Ok tt, w') ∧
    messages_of w' USER_ID = messages_of w USER_ID ++ [reply] ∧
    on_snapshot [mkChange ADDED reply] w' = (Ok tt, w').
Proof.
  intros Hbatch Hwindow Hread Hwrite.
  rewrite (on_snapshot_eq _ _ Hbatch).
  destruct (pipeline_replies (length (new_user_messages changes)) w Hread Hwindow Hwrite)
    as (w' & Hrun & Hdb & _).
  apply messages_of_with_reply in Hdb as [Hmine _].
  exists w', (mkMessage "ai" (reply_text w) (server_time w)).
  split; [exact Hrun|]. split; [exact Hmine|]. reflexivity.
Qed.

Lemma listener_ignores_own_reply_witness :
  ∃ w' reply,
    on_snapshot [mkChange ADDED (mkMessage "user" "Hi Aura" 0)]
      (sample_world sample_chat 0 store_up always_answers) = (Ok tt, w') ∧
    messages_of w' USER_ID = sample_chat ++ [reply] ∧
    on_snapshot [mkChange ADDED reply] w' = (Ok tt, w').
Proof.
  apply (listener_ignores_own_reply [mkChange ADDED (mkMessage "user" "Hi Aura" 0)]
           (sample_world sample_chat 0 store_up always_answers));
    [by vm_compute|by vm_compute|reflexivity|reflexivity].
Defined.

(** ** The memory accessors *)

(** X4. [get_user_memory] never raises and never changes the store or the
    counter; it returns the empty string when the read fails, when there is
    no memory document and when the document has no summary, and the stored
    summary otherwise. *)
Theorem memory_read_defaults (w : World) :
  ∃ user_memory w',
    get_user_memory w = (Ok user_memory, w') ∧
    db_memory w' = db_memory w ∧
    db_messages w' = db_messages w ∧
    user_messages_since_last_summary w' = user_messages_since_last_summary w ∧
    store_calls w' = S (store_calls w) ∧
    (store_fails w (store_calls w) = true →
     user_memory = EmptyString ∧ Print LogMemoryFetchError ∈ events_since w w') ∧
    (db_memory w !! USER_ID = None → user_memory = EmptyString) ∧
    (db_memory w !! USER_ID = Some None → user_memory = EmptyString) ∧
    (∀ summary, store_fails w (store_calls w) = false →
                db_memory w !! USER_ID = Some (Some summary) →
                user_memory = summary).
Proof.
  rewrite get_user_memory_eq. unfold stored_summary.
  destruct (store_fails w (store_calls w)) eqn:Hfails.
  - eexists _, _. split; [reflexivity|]. cbn_world. repeat split; try done.
    erewrite events_since_app by (cbn_world; reflexivity).
    apply elem_of_cons. right. apply elem_of_cons. by left.
  - eexists _, _. split; [reflexivity|]. cbn_world. repeat split; try done.
    + by intros ->.
    + by intros ->.
    + by intros summary _ ->.
Qed.

(** X5. Writing a summary and reading the memory back gives that summary,
    whatever was stored before, when the store takes both calls. *)
Theorem memory_update_round_trip (new_summary : string) (w : World) :
  store_fails w (store_calls w) = false →
  store_fails w (S (store_calls w)) = false →
  ∃ w1 w2,
    update_user_memory new_summary w = (Ok tt, w1) ∧
    get_user_memory w1 = (Ok new_summary, w2) ∧
    db_memory w2 = <[USER_ID := Some new_summary]> (db_memory w).
Proof.
  intros Hset Hget. rewrite update_user_memory_eq, Hset.
  eexists _, _. split; [reflexivity|].
  rewrite get_user_memory_eq. cbn_world. rewrite Hget.
  unfold stored_summary. cbn_world. rewrite lookup_insert_eq. done.
Qed.

Lemma memory_update_round_trip_witness :
  ∃ w1 w2,
    update_user_memory "User likes coffee."
      (sample_world sample_chat 0 store_up always_answers) = (Ok tt, w1) ∧
    get_user_memory w1 = (Ok "User likes coffee.", w2).
Proof.
  destruct (memory_update_round_trip "User likes coffee."
              (sample_world sample_chat 0 store_up always_answers))
    as (w1 & w2 & Hset & Hget & _); [reflexivity|reflexivity|].
  by exists w1, w2.
Defined.

(** X6. A store error in [update_user_memory] is swallowed: the call returns
    normally, prints the error, and the memory is what it was. *)
Theorem memory_update_failure_swallowed (new_summary : string) (w : World) :
  store_fails w (store_calls w) = true →
  ∃ w',
    update_user_memory new_summary w = (Ok tt, w') ∧
    db_memory w' = db_memory w ∧
    stored_summary w' = stored_summary w ∧
    events_since w w' =
      [MemorySet USER_ID new_summary false; Print LogMemoryUpdateError].
Proof.
  intros Hset. rewrite update_user_memory_eq, Hset.
  eexists. split; [reflexivity|]. cbn_world. repeat split.
  by erewrite events_since_app.
Qed.

Lemma memory_update_failure_swallowed_witness :
  ∃ w',
    update_user_memory "User likes coffee."
      (sample_world sample_chat 0 (fails_at 0) always_answers) = (Ok tt, w') ∧
    stored_summary w' = "User likes tea.".
Proof.
  destruct (memory_update_failure_swallowed "User likes coffee."
              (sample_world sample_chat 0 (fails_at 0) always_answers))
    as (w' & Hrun & _ & Hsummary & _); [reflexivity|].
  exists w'. split; [exact Hrun|]. rewrite Hsummary. reflexivity.
Defined.

(** ** The pipeline on every path *)

Lemma on_snapshot_cases (changes : list DocumentChange) (w : World) :
  on_snapshot changes w = (Ok tt, w) ∨
  ∃ n, on_snapshot changes w = pipeline_outcome (S n) w.
Proof.
  destruct (new_user_messages changes) as [|m ms] eqn:Hbatch.
  - left. unfold on_snapshot. by rewrite Hbatch.
  - right. exists (length ms). rewrite on_snapshot_eq by by rewrite Hbatch.
    by rewrite Hbatch.
Qed.

Lemma messages_of_same (w w' : World) (user : string) :
  db_messages w' = db_messages w → messages_of w' user = messages_of w user.
Proof. unfold messages_of. by intros ->. Qed.

(** What no path of the pipeline does to the world. *)
Lemma pipeline_frame (n : nat) (w : World) :
  let w' := snd (pipeline_outcome n w) in
  (∃ added,
     messages_of w' USER_ID = messages_of w USER_ID ++ added ∧
     (length added ≤ 1)%nat ∧
     Forall from_ai added) ∧
  (∀ user, user ≠ USER_ID → messages_of w' user = messages_of w user) ∧
  db_users w' = db_users w ∧
  (gen_calls w ≤ gen_calls w' ≤ gen_calls w + 2)%nat ∧
  (store_calls w ≤ store_calls w' ≤ store_calls w + 4)%nat ∧
  (0 <= user_messages_since_last_summary w → 0 <= user_messages_since_last_summary w').
Proof.
  assert (∀ w', db_messages w' = db_messages w →
            (∃ added, messages_of w' USER_ID = messages_of w USER_ID ++ added ∧
                      (length added ≤ 1)%nat ∧ Forall from_ai added) ∧
            (∀ user, user ≠ USER_ID → messages_of w' user = messages_of w user))
    as Hsame.
  { intros w' Hdb. split.
    - exists []. rewrite app_nil_r. split; [by apply messages_of_same|].
      split; [simpl; lia|constructor].
    - intros user _. by apply messages_of_same. }
  assert (∀ w', db_messages w' = with_reply w →
            (∃ added, messages_of w' USER_ID = messages_of w USER_ID ++ added ∧
                      (length added ≤ 1)%nat ∧ Forall from_ai added) ∧
            (∀ user, user ≠ USER_ID → messages_of w' user = messages_of w user))
    as Hreply.
  { intros w' Hdb. apply messages_of_with_reply in Hdb as [Hmine Hothers].
    split; [|exact Hothers]. eexists. split; [exact Hmine|].
    split; [simpl; lia|by repeat constructor]. }
  unfold pipeline_outcome.
  destruct (history_read_fails w); [|destruct (history_window w) as [|h0 hs]];
    [| |destruct (reply_write_fails w); [|destruct (threshold_reached n w)]];
    cbv zeta; cbn [snd].
  all: match goal with
       | |- (∃ added, messages_of ?w' _ = _ ∧ _) ∧ _ =>
           first [destruct (Hsame w' eq_refl) as [Hmine Hothers]
                 |destruct (Hreply w' eq_refl) as [Hmine Hothers]]
       end; (split; [exact Hmine|split; [exact Hothers|]]); cbn_world.
  1-3, 5: repeat split; lia.
  unfold store_calls_of_summarizer. destruct (summary_generation w); repeat split; lia.
Qed.

(** X7. Messages are append-only, for every outcome of every external call: a
    snapshot adds at most one message to the user's conversation, an AI
    message, at its end; it changes no other conversation and no user. *)
Theorem snapshot_appends_at_most_one (changes : list DocumentChange) (w : World) :
  let w' := snd (on_snapshot changes w) in
  (∃ added,
     messages_of w' USER_ID = messages_of w USER_ID ++ added ∧
     (length added ≤ 1)%nat ∧
     Forall from_ai added) ∧
  (∀ user, user ≠ USER_ID → messages_of w' user = messages_of w user) ∧
  db_users w' = db_users w.
Proof.
  destruct (on_snapshot_cases changes w) as [->|[n ->]].
  - cbn [snd]. split; [|done]. exists []. rewrite app_nil_r.
    split; [done|]. split; [simpl; lia|constructor].
  - destruct (pipeline_frame (S n) w) as (Hmine & Hothers & Husers & _). done.
Qed.

(** X8. One snapshot costs at most two generation calls and four store calls,
    and keeps a counter that is not negative that way. *)
Theorem snapshot_call_budget (changes : list DocumentChange) (w : World) :
  let w' := snd (on_snapshot changes w) in
  (gen_calls w ≤ gen_calls w' ≤ gen_calls w + 2)%nat ∧
  (store_calls w ≤ store_calls w' ≤ store_calls w + 4)%nat ∧
  (0 <= user_messages_since_last_summary w → 0 <= user_messages_since_last_summary w').
Proof.
  destruct (on_snapshot_cases changes w) as [->|[n ->]].
  - cbn [snd]. repeat split; lia.
  - destruct (pipeline_frame (S n) w) as (_ & _ & _ & Hgen & Hstore & Hcounter). done.
Qed.

(** X9. After a batch that got its reply the counter is below the threshold:
    only a batch that fails, or one that finds an empty window, can leave
    the counter at the threshold or above. *)
Theorem counter_below_threshold_after_reply (batch : list Message) (w : World) :
  batch ≠ [] →
  history_read_fails w = false →
  history_window w ≠ [] →
  reply_write_fails w = false →
  ∃ w',
    process_new_messages batch w = (Ok tt, w') ∧
    user_messages_since_last_summary w' < SUMMARY_INTERVAL ∧
    (0 <= user_messages_since_last_summary w → 0 <= user_messages_since_last_summary w').
Proof.
  intros Hbatch Hread Hwindow Hwrite.
  rewrite (process_new_messages_eq _ _ Hbatch).
  destruct (pipeline_replies (length batch) w Hread Hwindow Hwrite)
    as (w' & Hrun & _ & _ & Hcounter & _).
  exists w'. split; [exact Hrun|]. rewrite Hcounter.
  unfold threshold_reached, SUMMARY_INTERVAL.
  destruct (Z.leb_spec 5 (user_messages_since_last_summary w + Z.of_nat (length batch)));
    split; lia.
Qed.

Lemma counter_below_threshold_after_reply_witness :
  ∃ w',
    process_new_messages sample_chat (sample_world sample_chat 9 store_up always_answers)
      = (Ok tt, w') ∧
    user_messages_since_last_summary w' < 5.
Proof.
  destruct (counter_below_threshold_after_reply sample_chat
              (sample_world sample_chat 9 store_up always_answers))
    as (w' & Hrun & Hbelow & _); [done|reflexivity|by vm_compute|reflexivity|].
  by exists w'.
Defined.

(** X10. A failed history read leaves the pipeline as a store error, after the
    batch was counted: the counter keeps the increment, nothing is generated
    and nothing is written. *)
Theorem history_read_failure_keeps_count (batch : list Message) (w : World) :
  batch ≠ [] →
  history_read_fails w = true →
  ∃ w',
    process_new_messages batch w = (Raise StoreError, w') ∧
    user_messages_since_last_summary w' =
      user_messages_since_last_summary w + Z.of_nat (length batch) ∧
    db_messages w' = db_messages w ∧
    db_memory w' = db_memory w ∧
    gen_calls w' = gen_calls w ∧
    Forall (λ e, is_generation e = false ∧ is_store_write e = false) (events_since w w').
Proof.
  intros Hbatch Hread. rewrite (process_new_messages_eq _ _ Hbatch).
  unfold pipeline_outcome. rewrite Hread.
  eexists. split; [reflexivity|]. cbn_world. repeat split.
  erewrite events_since_app by reflexivity.
  unfold read_events, memory_read_events.
  destruct (memory_read_fails w); repeat constructor.
Qed.

Lemma history_read_failure_keeps_count_witness :
  ∃ w',
    process_new_messages sample_chat (sample_world sample_chat 4 (fails_at 1) always_answers)
      = (Raise StoreError, w') ∧
    user_messages_since_last_summary w' = 6.
Proof.
  destruct (history_read_failure_keeps_count sample_chat
              (sample_world sample_chat 4 (fails_at 1) always_answers))
    as (w' & Hrun & Hcounter & _); [done|reflexivity|].
  exists w'. split; [exact Hrun|]. rewrite Hcounter. reflexivity.
Defined.

(** X11. A failed reply write leaves the pipeline as a store error after the
    generation call was made: the generated text is lost, no message is
    stored, the summarizer does not run and the counter is not reset, even
    at the threshold. *)
Theorem reply_write_failure_loses_reply (batch : list Message) (w : World) :
  batch ≠ [] →
  history_read_fails w = false →
  history_window w ≠ [] →
  reply_write_fails w = true →
  ∃ w',
    process_new_messages batch w = (Raise StoreError, w') ∧
    db_messages w' = db_messages w ∧
    db_memory w' = db_memory w ∧
    gen_calls w' = S (gen_calls w) ∧
    user_messages_since_last_summary w' =
      user_messages_since_last_summary w + Z.of_nat (length batch) ∧
    count_events is_generation (events_since w w') = 1%nat ∧
    count_events is_summarizer_start (events_since w w') = 0%nat.
Proof.
  intros Hbatch Hread Hwindow Hwrite. rewrite (process_new_messages_eq _ _ Hbatch).
  unfold pipeline_outcome. rewrite Hread, Hwrite.
  destruct (history_window w) as [|h0 hs]; [done|].
  eexists. split; [reflexivity|]. cbn_world. repeat split.
  all: erewrite events_since_app by reflexivity.
  all: unfold read_events, memory_read_events, reply_events.
  all: destruct (memory_read_fails w), (reply_generation w); reflexivity.
Qed.

Lemma reply_write_failure_loses_reply_witness :
  ∃ w',
    process_new_messages sample_chat (sample_world sample_chat 4 (fails_at 2) always_answers)
      = (Raise StoreError, w') ∧
    messages_of w' USER_ID = sample_chat ∧
    user_messages_since_last_summary w' = 6.
Proof.
  destruct (reply_write_failure_loses_reply sample_chat
              (sample_world sample_chat 4 (fails_at 2) always_answers))
    as (w' & Hrun & Hdb & _ & _ & Hcounter & _);
    [done|reflexivity|by vm_compute|reflexivity|].
  exists w'. split; [exact Hrun|]. split.
  - unfold messages_of. rewrite Hdb. reflexivity.
  - rewrite Hcounter. reflexivity.
Defined.

(** X12. A reply below the threshold: the counter keeps the batch, the memory is
    untouched and the summarizer does nothing. *)
Theorem reply_below_threshold (batch : list Message) (w : World) :
  batch ≠ [] →
  history_read_fails w = false →
  history_window w ≠ [] →
  reply_write_fails w = false →
  user_messages_since_last_summary w + Z.of_nat (length batch) < SUMMARY_INTERVAL →
  ∃ w',
    process_new_messages batch w = (Ok tt, w') ∧
    user_messages_since_last_summary w' =
      user_messages_since_last_summary w + Z.of_nat (length batch) ∧
    db_memory w' = db_memory w ∧
    gen_calls w' = S (gen_calls w) ∧
    Forall (λ e, is_summarizer_event e = false) (events_since w w').
Proof.
  intros Hbatch Hread Hwindow Hwrite Hbelow.
  rewrite (process_new_messages_eq _ _ Hbatch).
  unfold pipeline_outcome. rewrite Hread, Hwrite.
  destruct (history_window w) as [|h0 hs] eqn:Hw; [done|].
  assert (threshold_reached (length batch) w = false) as ->
    by (unfold threshold_reached; lia).
  eexists. split; [reflexivity|]. cbn_world. repeat split.
  erewrite events_since_app by reflexivity.
  unfold read_events, memory_read_events, reply_events. rewrite Hw.
  destruct (memory_read_fails w), (reply_generation w); repeat constructor.
Qed.

Lemma reply_below_threshold_witness :
  ∃ w',
    process_new_messages sample_chat (sample_world sample_chat 1 store_up always_answers)
      = (Ok tt, w') ∧
    user_messages_since_last_summary w' = 3 ∧
    stored_summary w' = "User likes tea.".
Proof.
  destruct (reply_below_threshold sample_chat
              (sample_world sample_chat 1 store_up always_answers))
    as (w' & Hrun & Hcounter & Hmemory & _);
    [done|reflexivity|by vm_compute|reflexivity|by vm_compute|].
  exists w'. split; [exact Hrun|]. split.
  - rewrite Hcounter. reflexivity.
  - unfold stored_summary. rewrite Hmemory. reflexivity.
Defined.

(** X13. When the generation call answers, the stored reply is that text, with
    sender ai and the server's timestamp, and the request was built from the
    window and the memory read at the start of the run. *)
Theorem reply_is_generated_text (batch : list Message) (w : World) (answer : string) :
  batch ≠ [] →
  history_read_fails w = false →
  history_window w ≠ [] →
  reply_generation w = Some answer →
  reply_write_fails w = false →
  ∃ w',
    process_new_messages batch w = (Ok tt, w') ∧
    messages_of w' USER_ID =
      messages_of w USER_ID ++ [mkMessage "ai" answer (server_time w)] ∧
    server_time w' = Z.succ (server_time w) ∧
    Generate (reply_request (history_window w) (user_memory_read w)) true
      ∈ events_since w w'.
Proof.
  intros Hbatch Hread Hwindow Hanswer Hwrite.
  rewrite (process_new_messages_eq _ _ Hbatch).
  destruct (pipeline_replies (length batch) w Hread Hwindow Hwrite)
    as (w' & Hrun & Hdb & _ & _ & Htrace & _ & _ & Htime).
  apply messages_of_with_reply in Hdb as [Hmine _].
  unfold reply_text in Hmine. rewrite Hanswer in Hmine.
  exists w'. split; [exact Hrun|]. split; [exact Hmine|]. split; [exact Htime|].
  rewrite (events_since_app _ _ _ Htrace). unfold reply_events. rewrite Hanswer.
  rewrite !elem_of_app. right. left. apply elem_of_cons. by left.
Qed.

Lemma reply_is_generated_text_witness :
  ∃ w',
    process_new_messages sample_chat (sample_world sample_chat 0 store_up always_answers)
      = (Ok tt, w') ∧
    messages_of w' USER_ID = sample_chat ++ [mkMessage "ai" "I am here for you." 2].
Proof.
  destruct (reply_is_generated_text sample_chat
              (sample_world sample_chat 0 store_up always_answers) "I am here for you.")
    as (w' & Hrun & Hmessages & _);
    [done|reflexivity|by vm_compute|reflexivity|reflexivity|].
  by exists w'.
Defined.

(** X14. At the threshold, when the summarizer's generation answers: the text
    becomes the whole summary, as it is, unless the store refuses the write,
    which leaves the summary as it was; the request was built from the
    window and the memory read before the reply was written; the counter is
    0 either way. *)
Theorem summary_replaces_memory (batch : list Message) (w : World) (new_summary : string) :
  batch ≠ [] →
  history_read_fails w = false →
  history_window w ≠ [] →
  reply_write_fails w = false →
  SUMMARY_INTERVAL <= user_messages_since_last_summary w + Z.of_nat (length batch) →
  summary_generation w = Some new_summary →
  ∃ w',
    process_new_messages batch w = (Ok tt, w') ∧
    db_memory w' =
      (if memory_write_fails w then db_memory w
       else <[USER_ID := Some new_summary]> (db_memory w)) ∧
    stored_summary w' =
      (if memory_write_fails w then stored_summary w else new_summary) ∧
    Generate (summary_request (history_window w) (user_memory_read w)) true
      ∈ events_since w w' ∧
    user_messages_since_last_summary w' = 0.
Proof.
  intros Hbatch Hread Hwindow Hwrite Hreached Hsummary.
  rewrite (process_new_messages_eq _ _ Hbatch).
  destruct (pipeline_replies (length batch) w Hread Hwindow Hwrite)
    as (w' & Hrun & _ & Hmemory & Hcounter & Htrace & _).
  assert (threshold_reached (length batch) w = true) as Hthreshold
    by (unfold threshold_reached; lia).
  rewrite Hthreshold in *. unfold summarized_memory in Hmemory. rewrite Hsummary in Hmemory.
  exists w'. split; [exact Hrun|]. split; [exact Hmemory|].
  split; [|split; [|exact Hcounter]].
  - unfold stored_summary. rewrite Hmemory.
    destruct (memory_write_fails w); [done|]. by rewrite lookup_insert_eq.
  - rewrite (events_since_app _ _ _ Htrace). unfold summarizer_events. rewrite Hsummary.
    rewrite !elem_of_app. do 3 right.
    destruct (memory_write_fails w); apply elem_of_cons; right; apply elem_of_cons; by left.
Qed.

Lemma summary_replaces_memory_witness :
  ∃ w',
    process_new_messages sample_chat (sample_world sample_chat 3 store_up always_answers)
      = (Ok tt, w') ∧
    stored_summary w' = "I am here for you." ∧
    user_messages_since_last_summary w' = 0.
Proof.
  destruct (summary_replaces_memory sample_chat
              (sample_world sample_chat 3 store_up always_answers) "I am here for you.")
    as (w' & Hrun & _ & Hsummary & _ & Hcounter);
    [done|reflexivity|by vm_compute|reflexivity|by vm_compute|reflexivity|].
  exists w'. split; [exact Hrun|]. split; [exact Hsummary|exact Hcounter].
Defined.

(** ** The history window, for any collection *)

(** The window holds 15 messages, or all of them when fewer are stored; it
    holds stored messages only, oldest first; and its last turn is a newest
    stored message. *)
Lemma history_window_newest_last (w : World) :
  length (history_window w) = Nat.min 15 (length (messages_of w USER_ID)) ∧
  (∀ m, m ∈ history_window w → m ∈ messages_of w USER_ID) ∧
  Sorted older_first (history_window w) ∧
  (∀ newest, last (history_window w) = Some newest →
             ∀ m, m ∈ messages_of w USER_ID → timestamp m <= timestamp newest).
Proof.
  unfold history_window. split; [apply recent_window_length|].
  split; [|split; [apply recent_window_sorted|]].
  - intros m Hm. unfold recent_window in Hm. rewrite elem_of_reverse in Hm.
    apply subseteq_take in Hm. by rewrite order_by_timestamp_desc_perm in Hm.
  - intros newest Hlast m Hm. unfold recent_window in Hlast.
    rewrite last_reverse in Hlast.
    pose proof (order_by_timestamp_desc_sorted (messages_of w USER_ID)) as Hsorted.
    rewrite <- (order_by_timestamp_desc_perm (messages_of w USER_ID)) in Hm.
    destruct (Firestore.order_by_timestamp_desc (messages_of w USER_ID)) as [|top rest];
      [done|].
    cbn in Hlast. injection Hlast as ->.
    apply StronglySorted_cons in Hsorted as [Hall _].
    apply elem_of_cons in Hm as [->|Hm]; [done|].
    rewrite Forall_forall in Hall. by apply Hall.
Qed.

(** X15. A run of the pipeline on a non-empty batch, the store answering
    the history query and holding at least one message: the chat history the
    run sends to the generation service holds 15 stored messages, or all of
    them when fewer are stored, oldest first, and its last turn is a newest
    stored message. *)
Theorem pipeline_window_newest_last (batch : list Message) (w : World) :
  batch ≠ [] →
  history_read_fails w = false →
  messages_of w USER_ID ≠ [] →
  ∃ chat_history newest ok,
    Generate (reply_request chat_history (user_memory_read w)) ok
      ∈ events_since w (snd (process_new_messages batch w)) ∧
    length chat_history = Nat.min 15 (length (messages_of w USER_ID)) ∧
    (∀ m, m ∈ chat_history → m ∈ messages_of w USER_ID) ∧
    Sorted older_first chat_history ∧
    last chat_history = Some newest ∧
    (∀ m, m ∈ messages_of w USER_ID → timestamp m <= timestamp newest).
Proof.
  intros Hbatch Hread Hstored. rewrite (process_new_messages_eq _ _ Hbatch).
  assert (history_window w ≠ []) as Hwindow by by rewrite history_window_nil_iff.
  destruct (pipeline_reply_request (length batch) w Hread Hwindow) as [ok Hrequest].
  destruct (history_window_newest_last w) as (Hlen & Hin & Hsorted & Hnewest).
  destruct (last (history_window w)) as [newest|] eqn:Hlast.
  - exists (history_window w), newest, ok. repeat split; try done. by apply Hnewest.
  - apply last_None in Hlast. done.
Qed.

Lemma pipeline_window_newest_last_witness :
  ∃ chat_history newest ok,
    Generate
      (reply_request chat_history
         (user_memory_read (sample_world sample_chat 0 store_up never_answers))) ok
      ∈ events_since (sample_world sample_chat 0 store_up never_answers)
          (snd (process_new_messages sample_chat
                  (sample_world sample_chat 0 store_up never_answers))) ∧
    length chat_history = 2%nat ∧
    last chat_history = Some newest.
Proof.
  destruct (pipeline_window_newest_last sample_chat
              (sample_world sample_chat 0 store_up never_answers))
    as (chat_history & newest & ok & Hrequest & Hlen & _ & _ & Hlast & _);
    [done|reflexivity|by vm_compute|].
  exists chat_history, newest, ok. split; [exact Hrequest|]. split; [|exact Hlast].
  rewrite Hlen. reflexivity.
Defined.

(** ** Prompts *)

Lemma prefix_empty (s : string) : String.prefix EmptyString s = true.
Proof. by destruct s. Qed.

Lemma prefix_append (needle : string) :
  ∀ s rest, String.prefix needle s = true → String.prefix needle (s +:+ rest) = true.
Proof.
  induction needle as [|a needle IH]; intros s rest Hprefix.
  - apply prefix_empty.
  - destruct s as [|b s]; [done|].
    change (String b s +:+ rest) with (String b (s +:+ rest)).
    change (String.prefix (String a needle) (String b (s +:+ rest))) with
      (if Ascii.ascii_dec a b then String.prefix needle (s +:+ rest) else false).
    change (String.prefix (String a needle) (String b s)) with
      (if Ascii.ascii_dec a b then String.prefix needle s else false) in Hprefix.
    destruct (Ascii.ascii_dec a b); [by apply IH|done].
Qed.

Lemma contains_empty (s : string) : Py.contains s EmptyString = true.
Proof. destruct s; cbn [Py.contains]; by rewrite prefix_empty. Qed.

Lemma contains_cons (c : Ascii.ascii) (s needle : string) :
  Py.contains (String c s) needle =
  String.prefix needle (String c s) || Py.contains s needle.
Proof. reflexivity. Qed.

Lemma contains_append_l (a b needle : string) :
  Py.contains a needle = true → Py.contains (a +:+ b) needle = true.
Proof.
  induction a as [|c a IH]; intros Ha.
  - cbn [Py.contains] in Ha. rewrite orb_false_r in Ha.
    destruct needle; [apply contains_empty|done].
  - rewrite contains_cons in Ha.
    change (String c a +:+ b) with (String c (a +:+ b)). rewrite contains_cons.
    apply orb_prop in Ha as [Hprefix|Hrest].
    + change (String c (a +:+ b)) with (String c a +:+ b).
      by rewrite (prefix_append _ _ _ Hprefix).
    + rewrite (IH Hrest). apply orb_true_r.
Qed.

Lemma contains_join (sep x : string) (l : list string) :
  x ∈ l → Py.contains (Py.join sep l) x = true.
Proof.
  induction l as [|y l IH]; intros Hin; [by apply elem_of_nil in Hin|].
  apply elem_of_cons in Hin as [->|Hin].
  - destruct l; cbn [Py.join]; [apply contains_refl|].
    apply contains_append_l, contains_refl.
  - destruct l as [|z l]; [by apply elem_of_nil in Hin|].
    change (Py.join sep (y :: z :: l)) with (y +:+ sep +:+ Py.join sep (z :: l)).
    do 2 apply contains_append_r. by apply IH.
Qed.

(** X16. The system prompt of a reply: with an empty memory it is the base
    prompt, which has no memory block; with a memory it has the block, with
    its header and the memory itself.  The reply generation never raises:
    its text is the generated one or the fallback. *)
Theorem system_prompt_memory_block (chat_history : list Message) (user_memory : string)
    (w : World) :
  let request := reply_request chat_history user_memory in
  (∃ reply w' ok rest,
     get_ai_response chat_history user_memory w = (Ok reply, w') ∧
     events_since w w' = Generate request ok :: rest ∧
     reply = default REPLY_FALLBACK (gen_results w (gen_calls w))) ∧
  (user_memory = EmptyString →
   system_instruction request = Some BASE_SYSTEM_PROMPT ∧
   instruction_contains MEMORY_HEADER request = false) ∧
  (user_memory ≠ EmptyString →
   instruction_contains MEMORY_HEADER request = true ∧
   instruction_contains user_memory request = true).
Proof.
  cbv zeta. split; [|split].
  - rewrite get_ai_response_eq.
    destruct (gen_results w (gen_calls w)) as [answer|];
      eexists _, _, _, _; (split; [reflexivity|]); (split; [|reflexivity]);
      by erewrite events_since_app.
  - intros ->. split; [reflexivity|]. by vm_compute.
  - intros Hmemory. unfold instruction_contains, reply_request.
    cbn [system_instruction]. rewrite (dynamic_system_prompt_some _ Hmemory).
    unfold memory_block. split.
    + do 3 apply contains_append_r. apply contains_append_l, contains_refl.
    + do 5 apply contains_append_r. apply contains_refl.
Qed.

(** X17. The summarizer's request: no system instruction, and a prompt that holds
    the current profile and one line [sender: text] for every message of the
    history it was given. *)
Theorem summary_prompt_holds_profile_and_chat (chat_history : list Message)
    (existing_summary : string) :
  ∃ prompt,
    contents (summary_request chat_history existing_summary) = Prompt prompt ∧
    system_instruction (summary_request chat_history existing_summary) = None ∧
    Py.contains prompt existing_summary = true ∧
    ∀ msg, msg ∈ chat_history →
           Py.contains prompt (sender msg +:+ ": " +:+ text msg) = true.
Proof.
  eexists. split; [reflexivity|]. split; [reflexivity|]. unfold summary_prompt. split.
  - do 8 apply contains_append_r. apply contains_append_l, contains_refl.
  - intros msg Hmsg. do 15 apply contains_append_r. apply contains_append_l.
    apply contains_join.
    change (sender msg +:+ ": " +:+ text msg) with (conversation_line msg).
    apply list_elem_of_In, in_map, list_elem_of_In, Hmsg.
Qed.

(** ** The single-tenant check-ins, on every path *)

Lemma checkin_job_steps (v : Checkin) (w : World) :
  let reply := default PROACTIVE_FALLBACK (gen_results w (gen_calls w)) in
  let request := proactive_request (checkin_prompt v) (user_memory_read w) in
  let write_fails := store_fails w (S (store_calls w)) in
  ∃ w',
    checkin_job v w = (if write_fails then Raise StoreError else Ok tt, w') ∧
    db_memory w' = db_memory w ∧
    user_messages_since_last_summary w' = user_messages_since_last_summary w ∧
    gen_calls w' = S (gen_calls w) ∧
    db_messages w' =
      (if write_fails then db_messages w
       else <[USER_ID := messages_of w USER_ID ++ [mkMessage "ai" reply (server_time w)]]>
              (db_messages w)) ∧
    trace w' =
      trace w ++
        Print (checkin_started v) :: memory_read_events w ++
        match gen_results w (gen_calls w) with
        | Some _ => [Generate request true]
        | None => [Generate request false; Print LogProactiveError]
        end ++
        MessagesAdd USER_ID "ai" reply (negb write_fails) ::
        (if write_fails then [] else [Print (checkin_sent v reply)]).
Proof.
  cbv zeta. rewrite checkin_job_eq.
  unfold user_memory_read, memory_read_events, memory_read_fails.
  unfold bind at 1 2. unfold print at 1, emit, modify.
  rewrite get_user_memory_eq. unfold stored_summary. cbn_world.
  destruct (store_fails w (store_calls w)).
  all: unfold bind at 1; rewrite generate_proactive_message_eq; cbn_world.
  all: destruct (gen_results w (gen_calls w)) as [answer|].
  all: unfold bind at 1; rewrite messages_add_eq; cbn_world.
  all: destruct (store_fails w (S (store_calls w))).
  all: unfold print, emit, modify; cbn_world.
  all: eexists; split; [reflexivity|]; cbn_world.
  all: repeat split; by rewrite <- ?app_assoc.
Qed.

(** X18. A check-in whose message write goes through sends exactly one AI
    message, the generated text or the fallback when generation fails, built
    with whatever memory the read gave (none when the read failed), and
    touches neither the memory nor the counter. *)
Theorem checkin_sends_one_message (v : Checkin) (w : World) :
  store_fails w (S (store_calls w)) = false →
  ∃ w' ok,
    checkin_job v w = (Ok tt, w') ∧
    messages_of w' USER_ID =
      messages_of w USER_ID ++
        [mkMessage "ai" (default PROACTIVE_FALLBACK (gen_results w (gen_calls w)))
                   (server_time w)] ∧
    (∀ user, user ≠ USER_ID → messages_of w' user = messages_of w user) ∧
    db_memory w' = db_memory w ∧
    user_messages_since_last_summary w' = user_messages_since_last_summary w ∧
    Generate (proactive_request (checkin_prompt v) (user_memory_read w)) ok
      ∈ events_since w w' ∧
    count_events is_generation (events_since w w') = 1%nat ∧
    (store_fails w (store_calls w) = true →
     system_instruction (proactive_request (checkin_prompt v) (user_memory_read w))
       = Some BASE_SYSTEM_PROMPT).
Proof.
  intros Hwrite.
  destruct (checkin_job_steps v w) as (w' & Hrun & Hmemory & Hcounter & _ & Hdb & Htrace).
  cbv zeta in *. rewrite Hwrite in *. apply events_since_app in Htrace.
  exists w', (match gen_results w (gen_calls w) with Some _ => true | None => false end).
  split; [exact Hrun|]. unfold messages_of. rewrite Hdb.
  split; [by rewrite lookup_insert_eq|].
  split; [intros user Hne; by rewrite lookup_insert_ne|].
  split; [exact Hmemory|]. split; [exact Hcounter|]. rewrite Htrace.
  unfold memory_read_events, user_memory_read, memory_read_fails.
  split; [|split].
  - destruct (store_fails w (store_calls w)), (gen_results w (gen_calls w));
      cbn [app]; rewrite !elem_of_cons; auto 8.
  - destruct (store_fails w (store_calls w)), (gen_results w (gen_calls w)); reflexivity.
  - by intros ->.
Qed.

Lemma checkin_sends_one_message_witness :
  ∃ w',
    checkin_job Evening (sample_world sample_chat 2 (fails_at 0) never_answers)
      = (Ok tt, w') ∧
    messages_of w' USER_ID =
      sample_chat ++ [mkMessage "ai" "Just wanted to check in and see how you are." 2] ∧
    user_messages_since_last_summary w' = 2.
Proof.
  destruct (checkin_sends_one_message Evening
              (sample_world sample_chat 2 (fails_at 0) never_answers))
    as (w' & ok & Hrun & Hmessages & _ & _ & Hcounter & _); [reflexivity|].
  exists w'. split; [exact Hrun|]. split.
  - rewrite Hmessages. by vm_compute.
  - rewrite Hcounter. reflexivity.
Defined.

(** X19. A check-in whose message write fails ends in a store error: the
    generation call was made, its text is lost and nothing is stored. *)
Theorem checkin_write_failure_escapes (v : Checkin) (w : World) :
  store_fails w (S (store_calls w)) = true →
  ∃ w',
    checkin_job v w = (Raise StoreError, w') ∧
    db_messages w' = db_messages w ∧
    db_memory w' = db_memory w ∧
    gen_calls w' = S (gen_calls w).
Proof.
  intros Hwrite.
  destruct (checkin_job_steps v w) as (w' & Hrun & Hmemory & _ & Hgen & Hdb & _).
  cbv zeta in *. rewrite Hwrite in *. by exists w'.
Qed.

Lemma checkin_write_failure_escapes_witness :
  ∃ w',
    send_startup_message (sample_world sample_chat 0 (fails_at 1) always_answers)
      = (Raise StoreError, w') ∧
    db_messages w' = db_messages (sample_world sample_chat 0 (fails_at 1) always_answers).
Proof.
  destruct (checkin_write_failure_escapes Startup
              (sample_world sample_chat 0 (fails_at 1) always_answers))
    as (w' & Hrun & Hdb & _); [reflexivity|].
  by exists w'.
Defined.

(** ** The multi-tenant jobs, user by user *)

Lemma get_all_user_ids_eq (w : World) :
  CheckinScheduler.get_all_user_ids w =
  if store_fails w (store_calls w)
  then (Ok [], logged [UsersStream false; Print LogFetchUsersError] (set_store_calls S w))
  else (Ok (db_users w),
        logged [UsersStream true; Print (LogFoundUsers (db_users w))] (set_store_calls S w)).
Proof.
  unfold CheckinScheduler.get_all_user_ids, Firestore.users_stream. unfold_task.
  destruct (store_fails w (store_calls w)); cbn_world; f_equal; world_eq.
Qed.

(** One pass of the loop body: what it does to every conversation. *)
Lemma send_checkin_effect (user_id prompt : string) (w : World) :
  ∃ w' evs,
    CheckinScheduler.send_checkin_message_to_user user_id prompt w = (Ok tt, w') ∧
    trace w' = trace w ++ evs ∧
    store_fails w' = store_fails w ∧
    db_memory w' = db_memory w ∧
    db_users w' = db_users w ∧
    user_messages_since_last_summary w' = user_messages_since_last_summary w ∧
    count_events is_generation evs = length (sendable [user_id]) ∧
    count_events is_messages_add evs = length (sendable [user_id]) ∧
    ∀ user, ∃ added,
      messages_of w' user = messages_of w user ++ added ∧
      Forall from_ai added ∧
      (length added ≤ sends_to user [user_id])%nat ∧
      (store_fails w (store_calls w) = false → length added = sends_to user [user_id]).
Proof.
  unfold CheckinScheduler.send_checkin_message_to_user, sendable, sends_to.
  cbn [List.filter]. destruct (Py.truthy user_id) eqn:Htruthy; cbn [andb].
  - unfold bind at 1 2. unfold print at 1, emit, modify.
    rewrite fan_out_generate_eq. cbn_world.
    destruct (gen_results w (gen_calls w)) as [answer|].
    all: unfold try_except, bind; rewrite messages_add_eq; cbn_world.
    all: destruct (store_fails w (store_calls w)) eqn:Hfails;
      unfold print, emit, modify; cbn_world.
    all: eexists _, _; split; [reflexivity|]; cbn_world; rewrite <- ?app_assoc.
    all: split; [reflexivity|]; repeat (split; [reflexivity|]).
    all: intros user; unfold messages_of; cbn_world.
    1, 3: exists []; rewrite app_nil_r; split; [done|];
      split; [constructor|]; split; [simpl; lia|done].
    all: destruct (String.eqb_spec user_id user) as [->|Hne].
    1, 3: eexists; rewrite lookup_insert_eq; split; [reflexivity|];
      split; [by repeat constructor|]; split; [simpl; lia|done].
    all: exists []; rewrite app_nil_r, lookup_insert_ne by done;
      split; [done|]; split; [constructor|]; split; [simpl; lia|done].
  - exists w, []. split; [done|]. rewrite app_nil_r. repeat (split; [done|]).
    intros user. exists []. rewrite app_nil_r.
    split; [done|]. split; [constructor|]. split; [simpl; lia|done].
Qed.

Lemma sends_to_cons (user user_id : string) (rest : list string) :
  sends_to user (user_id :: rest) = (sends_to user [user_id] + sends_to user rest)%nat.
Proof. simpl. lia. Qed.

Lemma sendable_cons (user_id : string) (rest : list string) :
  length (sendable (user_id :: rest)) =
  (length (sendable [user_id]) + length (sendable rest))%nat.
Proof. unfold sendable. cbn [List.filter]. by destruct (Py.truthy user_id). Qed.

Lemma fan_out_loop_effect (prompt : string) (user_ids : list string) :
  ∀ w, ∃ w' evs,
    for_each user_ids
      (λ user_id, CheckinScheduler.send_checkin_message_to_user user_id prompt) w
      = (Ok tt, w') ∧
    trace w' = trace w ++ evs ∧
    store_fails w' = store_fails w ∧
    db_memory w' = db_memory w ∧
    db_users w' = db_users w ∧
    user_messages_since_last_summary w' = user_messages_since_last_summary w ∧
    count_events is_generation evs = length (sendable user_ids) ∧
    count_events is_messages_add evs = length (sendable user_ids) ∧
    ∀ user, ∃ added,
      messages_of w' user = messages_of w user ++ added ∧
      Forall from_ai added ∧
      (length added ≤ sends_to user user_ids)%nat ∧
      ((∀ k, store_fails w k = false) → length added = sends_to user user_ids).
Proof.
  induction user_ids as [|user_id rest IH]; intros w.
  - exists w, []. split; [done|]. rewrite app_nil_r. repeat (split; [done|]).
    intros user. exists []. rewrite app_nil_r.
    split; [done|]. split; [constructor|]. split; [simpl; lia|done].
  - destruct (send_checkin_effect user_id prompt w)
      as (w1 & evs1 & Hsend & Htrace1 & Hfails1 & Hmemory1 & Husers1 & Hcounter1 &
          Hgen1 & Hadd1 & Hmessages1).
    destruct (IH w1)
      as (w' & evs & Hloop & Htrace & Hfails & Hmemory & Husers & Hcounter &
          Hgen & Hadd & Hmessages).
    exists w', (evs1 ++ evs). cbn [for_each]. unfold bind at 1. rewrite Hsend.
    split; [exact Hloop|]. split; [by rewrite Htrace, Htrace1, app_assoc|].
    split; [congruence|]. split; [congruence|]. split; [congruence|].
    split; [congruence|]. rewrite !count_events_app, sendable_cons.
    split; [by rewrite Hgen1, Hgen|]. split; [by rewrite Hadd1, Hadd|].
    intros user.
    destruct (Hmessages1 user) as (added1 & Heq1 & Hai1 & Hle1 & Hlen1).
    destruct (Hmessages user) as (added & Heq & Hai & Hle & Hlen).
    exists (added1 ++ added). rewrite Heq, Heq1, app_assoc, length_app, sends_to_cons.
    split; [done|]. split; [by apply Forall_app|]. split; [lia|].
    intros Hup. rewrite Hlen1 by apply Hup. rewrite Hlen; [done|].
    intros k. rewrite Hfails1. apply Hup.
Qed.

Lemma fan_out_job_effect (j : FanOut) (w : World) :
  let listing_fails := store_fails w (store_calls w) in
  let user_ids := if listing_fails then [] else db_users w in
  ∃ w' evs,
    fan_out_job j w = (Ok tt, w') ∧
    trace w' = trace w ++ evs ∧
    db_memory w' = db_memory w ∧
    db_users w' = db_users w ∧
    user_messages_since_last_summary w' = user_messages_since_last_summary w ∧
    count_events is_generation evs = length (sendable user_ids) ∧
    count_events is_messages_add evs = length (sendable user_ids) ∧
    ∀ user, ∃ added,
      messages_of w' user = messages_of w user ++ added ∧
      Forall from_ai added ∧
      (length added ≤ sends_to user user_ids)%nat ∧
      ((∀ k, store_fails w k = false) → length added = sends_to user user_ids).
Proof.
  cbv zeta. rewrite fan_out_job_eq. unfold bind at 1. unfold print at 1, emit, modify.
  unfold bind at 1. rewrite get_all_user_ids_eq. cbn_world.
  set (user_ids := if store_fails w (store_calls w) then [] else db_users w).
  set (listed := if store_fails w (store_calls w)
                 then [UsersStream false; Print LogFetchUsersError]
                 else [UsersStream true; Print (LogFoundUsers (db_users w))]).
  set (w1 := mkWorld (db_messages w) (db_memory w) (db_users w) (server_time w)
                     (store_fails w) (S (store_calls w)) (gen_results w) (gen_calls w)
                     (user_messages_since_last_summary w)
                     (trace w ++ Print LogJobStarted :: listed)).
  destruct (fan_out_loop_effect (fan_out_prompt j) user_ids w1)
    as (w2 & evs & Hloop & Htrace & _ & Hmemory & Husers & Hcounter & Hgen & Hadd & Hmessages).
  assert ((if store_fails w (store_calls w)
           then (Ok [], mkWorld (db_messages w) (db_memory w) (db_users w) (server_time w)
                   (store_fails w) (S (store_calls w)) (gen_results w) (gen_calls w)
                   (user_messages_since_last_summary w)
                   ((trace w ++ [Print LogJobStarted]) ++
                      [UsersStream false; Print LogFetchUsersError]))
           else (Ok (db_users w), mkWorld (db_messages w) (db_memory w) (db_users w)
                   (server_time w) (store_fails w) (S (store_calls w)) (gen_results w)
                   (gen_calls w) (user_messages_since_last_summary w)
                   ((trace w ++ [Print LogJobStarted]) ++
                      [UsersStream true; Print (LogFoundUsers (db_users w))])))
          = (Ok user_ids, w1)) as ->.
  { subst user_ids listed w1.
    destruct (store_fails w (store_calls w)); by rewrite <- app_assoc. }
  unfold bind at 1. rewrite Hloop. unfold print, emit, modify.
  exists (set_trace (λ t, t ++ [Print LogJobFinished]) w2),
         (Print LogJobStarted :: listed ++ evs ++ [Print LogJobFinished]).
  split; [reflexivity|]. cbn_world.
  split; [rewrite Htrace; subst w1; cbn_world; by rewrite <- !app_assoc|].
  split; [exact Hmemory|]. split; [exact Husers|]. split; [exact Hcounter|].
  assert (count_events is_generation listed = 0%nat ∧
          count_events is_messages_add listed = 0%nat) as [Hlisted_gen Hlisted_add]
    by (subst listed; by destruct (store_fails w (store_calls w))).
  cbn [count_events is_generation is_messages_add].
  rewrite !count_events_app, Hlisted_gen, Hlisted_add, Hgen, Hadd.
  split; [simpl; lia|]. split; [simpl; lia|].
  intros user. destruct (Hmessages user) as (added & Heq & Hai & Hle & Hlen).
  exists added. split; [exact Heq|]. split; [exact Hai|]. split; [exact Hle|].
  intros Hup. apply Hlen. intros k. apply Hup.
Qed.

(** X20. With the store up, a fan-out job gives every listed user one AI message
    per occurrence of its id in the listing, skips the empty id, leaves every
    other conversation as it was, and touches no memory and no counter. *)
Theorem fan_out_delivers_to_listed_users (j : FanOut) (w : World) :
  (∀ k, store_fails w k = false) →
  ∃ w',
    fan_out_job j w = (Ok tt, w') ∧
    db_memory w' = db_memory w ∧
    user_messages_since_last_summary w' = user_messages_since_last_summary w ∧
    ∀ user, ∃ added,
      messages_of w' user = messages_of w user ++ added ∧
      Forall from_ai added ∧
      length added = sends_to user (db_users w).
Proof.
  intros Hup.
  destruct (fan_out_job_effect j w)
    as (w' & evs & Hrun & _ & Hmemory & _ & Hcounter & _ & _ & Hmessages).
  cbv zeta in Hmessages. rewrite Hup in Hmessages.
  exists w'. split; [exact Hrun|]. split; [exact Hmemory|]. split; [exact Hcounter|].
  intros user. destruct (Hmessages user) as (added & Heq & Hai & _ & Hlen).
  exists added. split; [exact Heq|]. split; [exact Hai|]. by apply Hlen.
Qed.

Lemma fan_out_delivers_to_listed_users_witness :
  ∃ w',
    fan_out_job FanOutEvening (three_ids_world store_up always_answers) = (Ok tt, w') ∧
    length (messages_of w' "alice") = 1%nat ∧
    length (messages_of w' "bob") = 1%nat ∧
    length (messages_of w' "carol") = 0%nat.
Proof.
  destruct (fan_out_delivers_to_listed_users FanOutEvening
              (three_ids_world store_up always_answers))
    as (w' & Hrun & _ & _ & Hmessages); [reflexivity|].
  exists w'. split; [exact Hrun|].
  destruct (Hmessages "alice") as (a & -> & _ & Ha).
  destruct (Hmessages "bob") as (b & -> & _ & Hb).
  destruct (Hmessages "carol") as (c & -> & _ & Hc).
  rewrite !length_app, Ha, Hb, Hc. by vm_compute.
Defined.

(** X21. When the listing goes through, a fan-out job returns normally whatever
    fails afterwards: it makes one generation call and one message write for
    every non-empty id of the listing, a failed write for one user does not
    keep the others from theirs, and conversations only grow, by AI
    messages. *)
Theorem fan_out_attempts_every_user (j : FanOut) (w : World) :
  store_fails w (store_calls w) = false →
  ∃ w',
    fan_out_job j w = (Ok tt, w') ∧
    count_events is_generation (events_since w w') = length (sendable (db_users w)) ∧
    count_events is_messages_add (events_since w w') = length (sendable (db_users w)) ∧
    ∀ user, ∃ added,
      messages_of w' user = messages_of w user ++ added ∧
      Forall from_ai added ∧
      (length added ≤ sends_to user (db_users w))%nat.
Proof.
  intros Hlisting.
  destruct (fan_out_job_effect j w)
    as (w' & evs & Hrun & Htrace & _ & _ & _ & Hgen & Hadd & Hmessages).
  cbv zeta in *. rewrite Hlisting in *.
  exists w'. split; [exact Hrun|]. rewrite (events_since_app _ _ _ Htrace).
  split; [exact Hgen|]. split; [exact Hadd|].
  intros user. destruct (Hmessages user) as (added & Heq & Hai & Hle & _).
  by exists added.
Qed.

Lemma fan_out_attempts_every_user_witness :
  ∃ w',
    fan_out_job FanOutMorning (three_ids_world (fails_at 1) never_answers) = (Ok tt, w') ∧
    count_events is_messages_add
      (events_since (three_ids_world (fails_at 1) never_answers) w') = 2%nat.
Proof.
  destruct (fan_out_attempts_every_user FanOutMorning
              (three_ids_world (fails_at 1) never_answers))
    as (w' & Hrun & _ & Hadd & _); [reflexivity|].
  exists w'. split; [exact Hrun|]. rewrite Hadd. reflexivity.
Defined.

(** The write that failed for alice did not keep bob from his message. *)
Example fan_out_goes_on_after_failure :
  let w' := snd (fan_out_job FanOutMorning (three_ids_world (fails_at 1) never_answers)) in
  messages_of w' "alice" = [] ∧
  messages_of w' "bob" = [mkMessage "ai" CheckinScheduler.PROACTIVE_FALLBACK 0].
Proof. by vm_compute. Qed.


